(** * Quantum-simulator: the numerical kernel and the composition engine

    A shallow embedding of the single-qubit simulator:

    - [Number]  : the JavaScript [number] type (IEEE 754 binary64) and the
                  operators the sources use on it;
    - [Quantum] : the exported kernel (complex numbers with the snapping
                  constructor, 2x2 matrices, gate registry, validators and
                  statistics);
    - [App]     : [src/App.tsx]: its own [Complex] class, gate table and the
                  React state of the composition engine with its history
                  (add / remove / reset / undo / redo).

    Definitions come first; the facts proved about them follow. *)

From Stdlib Require Import ZArith List Bool String Lia.
From Stdlib Require Import SpecFloat PrimFloat FloatOps.
Import ListNotations.

Set Warnings "-inexact-float".

(* ================================================================= *)
(** ** JavaScript numbers *)

Module Number.

(** A [number] is a binary64 value.  [spec_float] is the executable
    specification of IEEE 754 floats of the Standard Library; every
    operator below is the correctly rounded binary64 one. *)
Definition number : Type := spec_float.

Declare Scope num_scope.
Delimit Scope num_scope with num.
Bind Scope num_scope with number.

Definition prec : Z := 53.
Definition emax : Z := 1024.

Definition add : number -> number -> number := SFadd prec emax.
Definition sub : number -> number -> number := SFsub prec emax.
Definition mul : number -> number -> number := SFmul prec emax.
Definition div : number -> number -> number := SFdiv prec emax.
Definition neg : number -> number := SFopp.
Definition ltb : number -> number -> bool := SFltb.
Definition leb : number -> number -> bool := SFleb.
Definition gtb (x y : number) : bool := SFltb y x.

(** [x === y] on numbers: numeric equality, [+0 === -0], [NaN] differs
    from everything. *)
Definition strict_eq : number -> number -> bool := SFeqb.

Definition Math_abs : number -> number := SFabs.
Definition Math_sqrt : number -> number := SFsqrt prec emax.

(** [x ** 2], taken as the rounded square.  The language fixes the result
    only in special cases, among them [0 ** 2 = 0], the one case the facts
    below evaluate. *)
Definition sqr (x : number) : number := mul x x.

Definition isNaN (x : number) : bool :=
  match x with S754_nan => true | _ => false end.

(** Same bit pattern (distinguishes [+0] from [-0]). *)
Definition same (x y : number) : bool :=
  match x, y with
  | S754_zero s, S754_zero t => Bool.eqb s t
  | S754_infinity s, S754_infinity t => Bool.eqb s t
  | S754_nan, S754_nan => true
  | S754_finite s m e, S754_finite t n f =>
      Bool.eqb s t && Pos.eqb m n && Z.eqb e f
  | _, _ => false
  end.

(** Numeric literals of the sources, read as the parser reads them. *)
Definition lit (x : float) : number := Prim2SF x.

Definition n0 : number := Eval vm_compute in lit 0%float.
Definition n1 : number := Eval vm_compute in lit 1%float.
Definition n2 : number := Eval vm_compute in lit 2%float.
Definition n4 : number := Eval vm_compute in lit 4%float.
Definition e_15 : number := Eval vm_compute in lit 1e-15%float.
Definition e_12 : number := Eval vm_compute in lit 1e-12%float.
Definition n0_5 : number := Eval vm_compute in lit 0.5%float.
Definition e_16 : number := Eval vm_compute in lit 1e-16%float.
Definition NaN : number := S754_nan.

(** [Math.PI] is the binary64 nearest to pi. *)
Definition Math_PI : number := Eval vm_compute in
  lit 3.141592653589793%float.

(** [Math.SQRT1_2], the binary64 nearest to 1/sqrt 2; used only as the
    reference point for the accuracy of [Math.cos] and [Math.sin]. *)
Definition Math_SQRT1_2 : number := Eval vm_compute in
  lit 0.7071067811865476%float.

(** The binary64 values at most two units in the last place from [x]. *)
Definition within2 (x : number) : list number :=
  let p := SFpred prec emax in
  let s := SFsucc prec emax in
  [p (p x); p x; x; s x; s (s x)].

Definition near (ref x : number) : bool := existsb (same x) (within2 ref).

Infix "+" := add : num_scope.
Infix "-" := sub : num_scope.
Infix "*" := mul : num_scope.
Infix "/" := div : num_scope.
Notation "- x" := (neg x) : num_scope.
Infix "<?" := ltb : num_scope.
Infix ">?" := gtb : num_scope.
Notation "0" := n0 : num_scope.
Notation "1" := n1 : num_scope.
Notation "2" := n2 : num_scope.
Notation "4" := n4 : num_scope.

End Number.

Import Number.

(* ================================================================= *)
(** ** The exported kernel *)

Module Quantum.

Local Open Scope num_scope.

(** *** [class Complex] *)

Record Complex : Type := Complex_raw { re : number; im : number }.

(** The constructor body: a component of magnitude below [1e-15] is
    replaced by [0]. *)
Definition clean (x : number) : number :=
  if Math_abs x <? e_15 then 0 else x.

Definition new_Complex (re im : number) : Complex :=
  {| re := clean re; im := clean im |}.

(** [new Complex(re)]: the parameter [im] defaults to [0]. *)
Definition new_Complex1 (re : number) : Complex := new_Complex re 0.

Definition Complex_zero : Complex := new_Complex 0 0.
Definition Complex_one : Complex := new_Complex 1 0.
Definition Complex_i : Complex := new_Complex 0 1.

Definition multiply (this other : Complex) : Complex :=
  new_Complex (re this * re other - im this * im other)
              (re this * im other + im this * re other).

Definition add (this other : Complex) : Complex :=
  new_Complex (re this + re other) (im this + im other).

Definition subtract (this other : Complex) : Complex :=
  new_Complex (re this - re other) (im this - im other).

Definition conjugate (this : Complex) : Complex :=
  new_Complex (re this) (- im this).

Definition magnitude (this : Complex) : number :=
  Math_sqrt (re this * re this + im this * im this).

Definition magnitudeSquared (this : Complex) : number :=
  re this * re this + im this * im this.

Definition normalize (this : Complex) : Complex :=
  let mag := magnitude this in
  if strict_eq mag 0 then Complex_zero
  else new_Complex (re this / mag) (im this / mag).

Definition equals (this other : Complex) (tolerance : number) : bool :=
  (Math_abs (re this - re other) <? tolerance)
  && (Math_abs (im this - im other) <? tolerance).

(** A component is snapped when it is zero or of magnitude [1e-15] or
    more. *)
Definition snapped (x : number) : bool :=
  strict_eq x 0 || leb e_15 (Math_abs x).

(** *** Matrices and vectors *)

Definition Matrix2x2 : Type := (Complex * Complex) * (Complex * Complex).
Definition StateVector : Type := (Complex * Complex)%type.

Definition m00 (m : Matrix2x2) : Complex := fst (fst m).
Definition m01 (m : Matrix2x2) : Complex := snd (fst m).
Definition m10 (m : Matrix2x2) : Complex := fst (snd m).
Definition m11 (m : Matrix2x2) : Complex := snd (snd m).

Definition SQRT2 : number := Math_sqrt 2.
Definition SQRT2_INV : number := 1 / SQRT2.
Definition PI_4 : number := Math_PI / 4.
Definition PI_2 : number := Math_PI / 2.

(** The keys of the registry: [H], [X], [Y], [Z], [S], [T] and the two
    daggered ones.  They live in a module of their own so that [Z] and
    [S] keep their usual meaning elsewhere. *)
Module GateName.
Inductive t : Type := H | X | Y | Z | S | T | Sdg | Tdg.
End GateName.

Definition Gate : Type := GateName.t.

Definition multiplyMatrices (a b : Matrix2x2) : Matrix2x2 :=
  ( ( add (multiply (m00 a) (m00 b)) (multiply (m01 a) (m10 b)),
      add (multiply (m00 a) (m01 b)) (multiply (m01 a) (m11 b)) ),
    ( add (multiply (m10 a) (m00 b)) (multiply (m11 a) (m10 b)),
      add (multiply (m10 a) (m01 b)) (multiply (m11 a) (m11 b)) ) ).

Definition applyMatrix (matrix : Matrix2x2) (state : StateVector)
  : StateVector :=
  ( add (multiply (m00 matrix) (fst state)) (multiply (m01 matrix) (snd state)),
    add (multiply (m10 matrix) (fst state)) (multiply (m11 matrix) (snd state)) ).

Definition getIdentityMatrix : Matrix2x2 :=
  ( (Complex_one, Complex_zero), (Complex_zero, Complex_one) ).

(** The two nested loops return [false] at the first entry that differs
    from the identity by [tolerance] or more, in row-major order. *)
Definition isUnitary (matrix : Matrix2x2) (tolerance : number) : bool :=
  let conjugateTranspose : Matrix2x2 :=
    ( (conjugate (m00 matrix), conjugate (m10 matrix)),
      (conjugate (m01 matrix), conjugate (m11 matrix)) ) in
  let product := multiplyMatrices conjugateTranspose matrix in
  let identity := getIdentityMatrix in
  if negb (equals (m00 product) (m00 identity) tolerance) then false
  else if negb (equals (m01 product) (m01 identity) tolerance) then false
  else if negb (equals (m10 product) (m10 identity) tolerance) then false
  else if negb (equals (m11 product) (m11 identity) tolerance) then false
  else true.

Definition isNormalized (state : StateVector) (tolerance : number) : bool :=
  let norm := magnitudeSquared (fst state) + magnitudeSquared (snd state) in
  Math_abs (norm - 1) <? tolerance.

(** Two matrices agree within [tolerance]: [equals] on each of the four
    entries, the comparison [isUnitary] makes against the identity. *)
Definition Matrix_equals (a b : Matrix2x2) (tolerance : number) : bool :=
  equals (m00 a) (m00 b) tolerance && equals (m01 a) (m01 b) tolerance
  && equals (m10 a) (m10 b) tolerance && equals (m11 a) (m11 b) tolerance.

Record Probabilities : Type :=
  { prob0 : number; prob1 : number; probs_isNormalized : bool }.

Definition calculateProbabilities (state : StateVector) : Probabilities :=
  let prob0 := magnitudeSquared (fst state) in
  let prob1 := magnitudeSquared (snd state) in
  let total := prob0 + prob1 in
  {| prob0 := prob0 / total;
     prob1 := prob1 / total;
     probs_isNormalized := Math_abs (total - 1) <? e_12 |}.

Definition calculateDeterminant (matrix : Matrix2x2) : Complex :=
  subtract (multiply (m00 matrix) (m11 matrix))
           (multiply (m01 matrix) (m10 matrix)).

Definition calculateTrace (matrix : Matrix2x2) : Complex :=
  add (m00 matrix) (m11 matrix).

Definition calculatePurity (state : StateVector) : number :=
  let probs := calculateProbabilities state in
  prob0 probs * prob0 probs + prob1 probs * prob1 probs.

Definition normalizeState (state : StateVector) : StateVector :=
  let norm :=
    Math_sqrt (magnitudeSquared (fst state) + magnitudeSquared (snd state)) in
  if strict_eq norm 0 then (Complex_one, Complex_zero)
  else ( new_Complex (re (fst state) / norm) (im (fst state) / norm),
         new_Complex (re (snd state) / norm) (im (snd state) / norm) ).

(** *** The gate registry

    [Math.cos] and [Math.sin] are supplied by the host: the language
    leaves their results implementation-approximated, so the registry is
    stated for any pair of such functions. *)
Section Registry.

Variables Math_cos Math_sin : number -> number.

Definition fromPolar (magnitude phase : number) : Complex :=
  new_Complex (magnitude * Math_cos phase) (magnitude * Math_sin phase).

Definition GATES (g : Gate) : Matrix2x2 :=
  match g with
  | GateName.H => ( (new_Complex1 SQRT2_INV, new_Complex1 SQRT2_INV),
           (new_Complex1 SQRT2_INV, new_Complex1 (- SQRT2_INV)) )
  | GateName.X => ( (Complex_zero, Complex_one), (Complex_one, Complex_zero) )
  | GateName.Y => ( (Complex_zero, new_Complex 0 (- (1))), (Complex_i, Complex_zero) )
  | GateName.Z => ( (Complex_one, Complex_zero), (Complex_zero, new_Complex1 (- (1))) )
  | GateName.S => ( (Complex_one, Complex_zero), (Complex_zero, Complex_i) )
  | GateName.T => ( (Complex_one, Complex_zero),
           (Complex_zero, fromPolar 1 PI_4) )
  | GateName.Sdg => ( (Complex_one, Complex_zero),
             (Complex_zero, new_Complex 0 (- (1))) )
  | GateName.Tdg => ( (Complex_one, Complex_zero),
             (Complex_zero, fromPolar 1 (- PI_4)) )
  end.

End Registry.

(** Both components of a value are snapped, or [NaN]. *)
Definition Complex_snapped (c : Complex) : Prop :=
  snapped (re c) || isNaN (re c) = true
  /\ snapped (im c) || isNaN (im c) = true.

(** The diagonal matrix with entries [1] and [1 * c + (1 * s) i], as
    [fromPolar 1] builds its second entry. *)
Definition phase_matrix (c s : number) : Matrix2x2 :=
  ( (Complex_one, Complex_zero),
    (Complex_zero, new_Complex (1 * c) (1 * s)) ).

(** What is asked of the host's [Math.cos] and [Math.sin]: at the two
    arguments the registry uses, the results are within two units in the
    last place of 1/sqrt 2 (up to the sign of the sine). *)
Definition trig_accurate (Math_cos Math_sin : number -> number) : bool :=
  near Math_SQRT1_2 (Math_cos PI_4)
  && near Math_SQRT1_2 (Math_sin PI_4)
  && near Math_SQRT1_2 (Math_cos (- PI_4))
  && near Math_SQRT1_2 (- Math_sin (- PI_4)).

End Quantum.

(* ================================================================= *)
(** ** [src/App.tsx]: the composition engine *)

Module App.

Local Open Scope num_scope.

Definition Gate : Type := Quantum.Gate.
Module GateName := Quantum.GateName.

(** *** [class Complex]: the constructor stores its arguments as they
    are. *)

Record Complex : Type := new_Complex { re : number; im : number }.

(** [new Complex(re)]: the parameter [im] defaults to [0]. *)
Definition new_Complex1 (re : number) : Complex := new_Complex re 0.

Definition multiply (this other : Complex) : Complex :=
  new_Complex (re this * re other - im this * im other)
              (re this * im other + im this * re other).

Definition add (this other : Complex) : Complex :=
  new_Complex (re this + re other) (im this + im other).

Definition subtract (this other : Complex) : Complex :=
  new_Complex (re this - re other) (im this - im other).

Definition conjugate (this : Complex) : Complex :=
  new_Complex (re this) (- im this).

Definition magnitude (this : Complex) : number :=
  Math_sqrt (re this * re this + im this * im this).

Definition Matrix2x2 : Type := (Complex * Complex) * (Complex * Complex).
Definition StateVector : Type := (Complex * Complex)%type.

Definition m00 (m : Matrix2x2) : Complex := fst (fst m).
Definition m01 (m : Matrix2x2) : Complex := snd (fst m).
Definition m10 (m : Matrix2x2) : Complex := fst (snd m).
Definition m11 (m : Matrix2x2) : Complex := snd (snd m).

Definition multiplyMatrices (a b : Matrix2x2) : Matrix2x2 :=
  ( ( add (multiply (m00 a) (m00 b)) (multiply (m01 a) (m10 b)),
      add (multiply (m00 a) (m01 b)) (multiply (m01 a) (m11 b)) ),
    ( add (multiply (m10 a) (m00 b)) (multiply (m11 a) (m10 b)),
      add (multiply (m10 a) (m01 b)) (multiply (m11 a) (m11 b)) ) ).

Definition applyMatrix (matrix : Matrix2x2) (state : StateVector)
  : StateVector :=
  ( add (multiply (m00 matrix) (fst state)) (multiply (m01 matrix) (snd state)),
    add (multiply (m10 matrix) (fst state)) (multiply (m11 matrix) (snd state)) ).

Definition getIdentityMatrix : Matrix2x2 :=
  ( (new_Complex1 1, new_Complex1 0), (new_Complex1 0, new_Complex1 1) ).

(** The fixed initial vector [(1, 0)]. *)
Definition initialVector : StateVector := (new_Complex1 1, new_Complex1 0).

Record Probabilities : Type :=
  { prob0 : number; prob1 : number; normalizationFactor : number }.

Definition calculateProbabilities (state : StateVector) : Probabilities :=
  let prob0 := sqr (magnitude (fst state)) in
  let prob1 := sqr (magnitude (snd state)) in
  let total := prob0 + prob1 in
  {| prob0 := prob0 / total;
     prob1 := prob1 / total;
     normalizationFactor := total |}.

(** *** The data of the engine *)

Record GateOperation : Type :=
  { id : string; gate : Gate; timestamp : Z }.

(** [interface HistoryState]: the triple of the composition state. *)
Record HistoryState : Type :=
  { operations : list GateOperation;
    currentState : StateVector;
    compositeMatrix : Matrix2x2 }.

(** The React state of [App] that the engine reads and writes.  The
    three cells [operations], [currentState] and [compositeMatrix] are
    always set together; they are kept as one triple, [present]. *)
Record AppState : Type :=
  { present : HistoryState;
    history : list HistoryState;
    historyIndex : Z }.

(** [a.slice(0, end)]: a negative [end] counts from the end of the
    array. *)
Definition slice0 {A : Type} (a : list A) (end_ : Z) : list A :=
  let len := Z.of_nat (List.length a) in
  let final := if (end_ <? 0)%Z then Z.max (len + end_) 0
               else Z.min end_ len in
  firstn (Z.to_nat final) a.

(** [a[i]]: [undefined] (here [None]) outside the array. *)
Definition index {A : Type} (a : list A) (i : Z) : option A :=
  if (i <? 0)%Z then None else nth_error a (Z.to_nat i).

(** [a.shift()]: the array without its first element. *)
Definition shift {A : Type} (a : list A) : list A := tl a.

(** The state before the first action. *)
Definition initial : AppState :=
  {| present := {| operations := [];
                   currentState := initialVector;
                   compositeMatrix := getIdentityMatrix |};
     history := [];
     historyIndex := (-1)%Z |}.

(** [saveToHistory]: the new values of [history] and [historyIndex]. *)
Definition saveToHistory (ops : list GateOperation) (state : StateVector)
    (matrix : Matrix2x2) (s : AppState) : list HistoryState * Z :=
  let newState := {| operations := ops;
                     currentState := state;
                     compositeMatrix := matrix |} in
  let newHistory := slice0 (history s) (historyIndex s + 1) in
  let newHistory := newHistory ++ [newState] in
  let newHistory :=
    if (100 <? Z.of_nat (List.length newHistory))%Z then shift newHistory
    else newHistory in
  (newHistory, (Z.of_nat (List.length newHistory) - 1)%Z).

Definition reset (s : AppState) : AppState :=
  let initialState : StateVector := (new_Complex1 1, new_Complex1 0) in
  let initialMatrix := getIdentityMatrix in
  let initialOps : list GateOperation := [] in
  let saved := saveToHistory initialOps initialState initialMatrix s in
  {| present := {| operations := initialOps;
                   currentState := initialState;
                   compositeMatrix := initialMatrix |};
     history := fst saved;
     historyIndex := snd saved |}.

(** [undo] and [redo] read [history[...]]; reading a field of
    [undefined] throws, which is [None] here. *)
Definition undo (s : AppState) : option AppState :=
  if (historyIndex s >? 0)%Z then
    match index (history s) (historyIndex s - 1) with
    | Some prevState =>
        Some {| present := prevState;
                history := history s;
                historyIndex := (historyIndex s - 1)%Z |}
    | None => None
    end
  else Some s.

Definition redo (s : AppState) : option AppState :=
  if (historyIndex s <? Z.of_nat (List.length (history s)) - 1)%Z then
    match index (history s) (historyIndex s + 1) with
    | Some nextState =>
        Some {| present := nextState;
                history := history s;
                historyIndex := (historyIndex s + 1)%Z |}
    | None => None
    end
  else Some s.

Section Engine.

Variables Math_cos Math_sin : number -> number.

Definition GATES (g : Gate) : Matrix2x2 :=
  match g with
  | GateName.H =>
      ( (new_Complex1 (1 / Math_sqrt 2), new_Complex1 (1 / Math_sqrt 2)),
        (new_Complex1 (1 / Math_sqrt 2),
         new_Complex1 (- (1) / Math_sqrt 2)) )
  | GateName.X =>
      ( (new_Complex1 0, new_Complex1 1), (new_Complex1 1, new_Complex1 0) )
  | GateName.Y =>
      ( (new_Complex1 0, new_Complex 0 (- (1))),
        (new_Complex 0 1, new_Complex1 0) )
  | GateName.Z =>
      ( (new_Complex1 1, new_Complex1 0),
        (new_Complex1 0, new_Complex1 (- (1))) )
  | GateName.S =>
      ( (new_Complex1 1, new_Complex1 0),
        (new_Complex1 0, new_Complex 0 1) )
  | GateName.T =>
      ( (new_Complex1 1, new_Complex1 0),
        (new_Complex1 0,
         new_Complex (Math_cos (Math_PI / 4)) (Math_sin (Math_PI / 4))) )
  | GateName.Sdg =>
      ( (new_Complex1 1, new_Complex1 0),
        (new_Complex1 0, new_Complex 0 (- (1))) )
  | GateName.Tdg =>
      ( (new_Complex1 1, new_Complex1 0),
        (new_Complex1 0,
         new_Complex (Math_cos (- Math_PI / 4))
                     (Math_sin (- Math_PI / 4))) )
  end.

(** [addGate].  The identifier and the timestamp of the new operation
    come from the clock and the random generator; they are arguments
    here. *)
Definition addGate (newId : string) (now : Z) (gateName : Gate)
    (s : AppState) : AppState :=
  let newOperation :=
    {| id := newId; gate := gateName; timestamp := now |} in
  let newOperations := operations (present s) ++ [newOperation] in
  let gateMatrix := GATES gateName in
  let newState := applyMatrix gateMatrix (currentState (present s)) in
  let newCompositeMatrix :=
    multiplyMatrices gateMatrix (compositeMatrix (present s)) in
  let saved := saveToHistory newOperations newState newCompositeMatrix s in
  {| present := {| operations := newOperations;
                   currentState := newState;
                   compositeMatrix := newCompositeMatrix |};
     history := fst saved;
     historyIndex := snd saved |}.

(** The loop of [removeOperation]: [i] runs from the last index of
    [newOperations] down to [0], and each step multiplies the gate of
    [newOperations[i]] on the left of [newMatrix]. *)
Definition recompute (newOperations : list GateOperation) : Matrix2x2 :=
  fold_left (fun newMatrix op => multiplyMatrices (GATES (gate op)) newMatrix)
            (rev newOperations) getIdentityMatrix.

Definition removeOperation (operationId : string) (s : AppState)
  : AppState :=
  let newOperations :=
    filter (fun op => negb (String.eqb (id op) operationId))
           (operations (present s)) in
  let newMatrix := recompute newOperations in
  let newState :=
    applyMatrix newMatrix (new_Complex1 1, new_Complex1 0) in
  let saved := saveToHistory newOperations newState newMatrix s in
  {| present := {| operations := newOperations;
                   currentState := newState;
                   compositeMatrix := newMatrix |};
     history := fst saved;
     historyIndex := snd saved |}.

(** *** Runs of the engine *)

Inductive Action : Type :=
| Add (newId : string) (now : Z) (gateName : Gate)
| Remove (operationId : string)
| Reset
| Undo
| Redo.

Definition step (s : AppState) (a : Action) : option AppState :=
  match a with
  | Add newId now gateName => Some (addGate newId now gateName s)
  | Remove operationId => Some (removeOperation operationId s)
  | Reset => Some (reset s)
  | Undo => undo s
  | Redo => redo s
  end.

Fixpoint run (s : AppState) (actions : list Action) : option AppState :=
  match actions with
  | [] => Some s
  | a :: rest =>
      match step s a with
      | Some s' => run s' rest
      | None => None
      end
  end.

(** [n] calls of [undo] in a row. *)
Fixpoint undo_n (n : nat) (s : AppState) : option AppState :=
  match n with
  | O => Some s
  | Datatypes.S n' =>
      match undo s with
      | Some s' => undo_n n' s'
      | None => None
      end
  end.

(** The sequence rebuilt from the reset state by one [addGate] per
    operation, in order. *)
Definition append_all (ops : list GateOperation) (s : AppState)
  : AppState :=
  fold_left (fun s op => addGate (id op) (timestamp op) (gate op) s) ops s.

(** The product of the gate matrices of a sequence, the most recently
    appended gate leftmost: [G_n * (... * (G_2 * (G_1 * I)))]. *)
Definition product_right_to_left (ops : list GateOperation) : Matrix2x2 :=
  fold_left (fun m op => multiplyMatrices (GATES (gate op)) m)
            ops getIdentityMatrix.

(** The composition invariant of a triple. *)
Definition composition_invariant (t : HistoryState) : Prop :=
  compositeMatrix t = product_right_to_left (operations t)
  /\ currentState t = applyMatrix (compositeMatrix t) initialVector.

End Engine.

(** Entry-wise numeric equality ([===] on each component). *)
Definition Complex_eq (a b : Complex) : bool :=
  strict_eq (re a) (re b) && strict_eq (im a) (im b).

Definition Matrix_eq (a b : Matrix2x2) : bool :=
  Complex_eq (m00 a) (m00 b) && Complex_eq (m01 a) (m01 b)
  && Complex_eq (m10 a) (m10 b) && Complex_eq (m11 a) (m11 b).

Definition Vector_eq (a b : StateVector) : bool :=
  Complex_eq (fst a) (fst b) && Complex_eq (snd a) (snd b).

(** The pointer of a well-formed history designates an entry of the
    log, or is [-1]. *)
Definition history_ok (s : AppState) : Prop :=
  (-1 <= historyIndex s < Z.of_nat (List.length (history s)))%Z.

End App.

(* ================================================================= *)
(** ** A host for [Math.cos] and [Math.sin] *)

Module Host.

Local Open Scope num_scope.

(** The results of the correctly rounded cosine and sine at the two
    arguments of the registry, [Math.PI / 4] and its opposite:
    [0.7071067811865476] and [0.7071067811865475] up to sign. *)
Definition Math_cos (x : number) : number := Eval vm_compute in
  lit 0.7071067811865476%float.

Definition Math_sin (x : number) : number :=
  if x <? 0 then - (lit 0.7071067811865475%float)
  else lit 0.7071067811865475%float.

End Host.

(* ================================================================= *)
(** ** The kernel's entropy *)

Module Statistics.

Import Quantum.
Local Open Scope num_scope.

(** [calculateEntropy].  [Math.log2] is supplied by the host, like the
    trigonometric functions. *)
Section Entropy.

Variable Math_log2 : number -> number.

Definition calculateEntropy (state : StateVector) : number :=
  let probs := calculateProbabilities state in
  let entropy := 0 in
  let entropy :=
    if prob0 probs >? e_15
    then entropy - prob0 probs * Math_log2 (prob0 probs)
    else entropy in
  let entropy :=
    if prob1 probs >? e_15
    then entropy - prob1 probs * Math_log2 (prob1 probs)
    else entropy in
  entropy.

End Entropy.

(** The sign bit is clear, or the value is [NaN]. *)
Definition not_negative (x : number) : bool :=
  match x with
  | S754_zero s | S754_infinity s | S754_finite s _ _ => negb s
  | S754_nan => true
  end.

(** Neither [NaN] nor infinite. *)
Definition is_finite (x : number) : bool :=
  match x with
  | S754_zero _ | S754_finite _ _ _ => true
  | S754_infinity _ | S754_nan => false
  end.

End Statistics.

(* ================================================================= *)
(** ** [src/App.tsx]: validation and the share link *)

Module Validation.

Import App.
Local Open Scope num_scope.

(** [isUnitary] of [App.tsx]: an entry fails when the magnitude of its
    difference with the identity exceeds [tolerance]. *)
Definition isUnitary (matrix : Matrix2x2) (tolerance : number) : bool :=
  let conjugateTranspose : Matrix2x2 :=
    ( (conjugate (m00 matrix), conjugate (m10 matrix)),
      (conjugate (m01 matrix), conjugate (m11 matrix)) ) in
  let product := multiplyMatrices conjugateTranspose matrix in
  let identity : Matrix2x2 :=
    ( (new_Complex1 1, new_Complex1 0), (new_Complex1 0, new_Complex1 1) ) in
  if magnitude (subtract (m00 product) (m00 identity)) >? tolerance then false
  else if magnitude (subtract (m01 product) (m01 identity)) >? tolerance then false
  else if magnitude (subtract (m10 product) (m10 identity)) >? tolerance then false
  else if magnitude (subtract (m11 product) (m11 identity)) >? tolerance then false
  else true.

(** The diagonal matrix with entries [1] and [c + s i], the shape of the
    [T] and [T-dagger] entries of the table. *)
Definition phase_matrix (c s : number) : Matrix2x2 :=
  ( (new_Complex1 1, new_Complex1 0), (new_Complex1 0, new_Complex c s) ).

(** The host's cosine and sine at the arguments of the table of
    [App.tsx], [Math.PI / 4] and [-Math.PI / 4]. *)
Definition trig_accurate (Math_cos Math_sin : number -> number) : bool :=
  near Math_SQRT1_2 (Math_cos (Math_PI / 4))
  && near Math_SQRT1_2 (Math_sin (Math_PI / 4))
  && near Math_SQRT1_2 (Math_cos (- Math_PI / 4))
  && near Math_SQRT1_2 (- Math_sin (- Math_PI / 4)).

End Validation.

Module Share.

Import App.

(** A string is its sequence of UTF-16 code units. *)
Definition code_unit : Type := N.
Definition jsstring : Type := list code_unit.

Definition jsstring_eqb (a b : jsstring) : bool :=
  if list_eq_dec N.eq_dec a b then true else false.

(** The keys of [GATES] as strings; the dagger is the code unit
    [U+2020]. *)
Definition key (g : Gate) : jsstring :=
  match g with
  | GateName.H => [72%N]
  | GateName.X => [88%N]
  | GateName.Y => [89%N]
  | GateName.Z => [90%N]
  | GateName.S => [83%N]
  | GateName.T => [84%N]
  | GateName.Sdg => [83%N; 8224%N]
  | GateName.Tdg => [84%N; 8224%N]
  end.

Definition keys : list jsstring :=
  map key [GateName.H; GateName.X; GateName.Y; GateName.Z;
           GateName.S; GateName.T; GateName.Sdg; GateName.Tdg].

(** [k in GATES].  The names an object literal inherits are all longer
    than the one-unit strings the decoder tests, so the own keys decide. *)
Definition in_GATES (k : jsstring) : bool := existsb (jsstring_eqb k) keys.

(** [operations.map(op => op.gate).join('')] of [shareState]. *)
Definition gateSequence (ops : list GateOperation) : jsstring :=
  List.concat (map (fun op => key (gate op)) ops).

(** [gates.split('')]: one string per code unit. *)
Definition split_units (gates : jsstring) : list jsstring :=
  map (fun c => [c]) gates.

(** [gates.split('').filter(gate => gate in GATES)], the gates the page
    replays from its [gates] parameter. *)
Definition gateArray (gates : jsstring) : list jsstring :=
  filter in_GATES (split_units gates).

(** The gate a daggered key is read back as. *)
Definition undagger (g : Gate) : Gate :=
  match g with
  | GateName.Sdg => GateName.S
  | GateName.Tdg => GateName.T
  | g => g
  end.

End Share.

(* ================================================================= *)
(** ** Predicates on the state of the engine *)

Module Engine.

Import App.

(** The triple on display is the entry the pointer designates. *)
Definition synced (s : AppState) : Prop :=
  (0 <= historyIndex s)%Z -> index (history s) (historyIndex s) = Some (present s).

(** The pointer is negative only before the first recorded action. *)
Definition started (s : AppState) : Prop :=
  (historyIndex s < 0)%Z -> s = initial.

(** The invariant of the history. *)
Definition history_inv (s : AppState) : Prop :=
  history_ok s /\ synced s /\ started s
  /\ (List.length (history s) <= 100)%nat.

(** The entries [saveToHistory] keeps, with the new one, before the
    bound is applied. *)
Definition kept_entries (t : HistoryState) (s : AppState) : list HistoryState :=
  slice0 (history s) (historyIndex s + 1) ++ [t].

(** The actions that record a snapshot. *)
Definition is_mutation (a : Action) : bool :=
  match a with
  | Add _ _ _ | Remove _ | Reset => true
  | Undo | Redo => false
  end.

Definition is_remove (a : Action) : bool :=
  match a with Remove _ => true | _ => false end.

(** The first column of a matrix. *)
Definition first_column (m : Matrix2x2) : StateVector := (m00 m, m10 m).

(** A property of the triple on display and of every recorded one. *)
Definition everywhere (P : HistoryState -> Prop) (s : AppState) : Prop :=
  P (present s) /\ Forall P (history s).

(** A triple is coherent when its matrix is the right-to-left product of
    its sequence and its vector is the first column of its matrix. *)
Definition coherent (Math_cos Math_sin : number -> number)
    (t : HistoryState) : Prop :=
  compositeMatrix t = product_right_to_left Math_cos Math_sin (operations t)
  /\ currentState t = first_column (compositeMatrix t).

End Engine.

(* ================================================================= *)
(** * Facts *)

(** ** Numbers *)

Module NumberFacts.

Lemma same_eq (x y : number) : same x y = true -> x = y.
Proof.
  destruct x as [s | s | | s m e], y as [t | t | | t n f];
    simpl; try discriminate; try reflexivity.
  - intros E. apply Bool.eqb_prop in E. now subst.
  - intros E. apply Bool.eqb_prop in E. now subst.
  - intros E.
    apply andb_prop in E as [E Ee]. apply andb_prop in E as [Es Em].
    apply Bool.eqb_prop in Es. apply Pos.eqb_eq in Em. apply Z.eqb_eq in Ee.
    now subst.
Qed.

Lemma near_In (ref x : number) : near ref x = true -> In x (within2 ref).
Proof.
  unfold near. intros E. apply existsb_exists in E as [y [Hy E]].
  apply same_eq in E. now subst.
Qed.

Lemma neg_involutive (x : number) : neg (neg x) = x.
Proof. destruct x; simpl; now rewrite ?negb_involutive. Qed.

(** Comparing in the other direction gives the opposite answer. *)
Lemma SFcompare_antisym (x y : number) :
  SFcompare y x = option_map CompOpp (SFcompare x y).
Proof.
  destruct x as [s | s | | s m e], y as [t | t | | t n f]; simpl;
    try reflexivity;
    try (destruct s; reflexivity); try (destruct t; reflexivity);
    try (destruct s, t; reflexivity).
  destruct s, t; simpl; try reflexivity;
    rewrite (Z.compare_antisym e f);
    destruct (e ?= f)%Z; simpl; try reflexivity;
    rewrite (Pos.compare_cont_antisym m n Eq); simpl;
    now rewrite ?CompOpp_involutive.
Qed.

(** [!(x < y)] gives [y <= x] as soon as neither side is [NaN]. *)
Lemma not_ltb_leb (x y : number) :
  ltb x y = false -> isNaN x = false -> isNaN y = false -> leb y x = true.
Proof.
  unfold ltb, leb, SFltb, SFleb. rewrite (SFcompare_antisym x y).
  destruct x as [s | s | | s m e], y as [t | t | | t n f];
    try discriminate; intros L _ _;
    destruct (SFcompare _ _) as [[ | | ] | ] eqn:E;
    simpl in *; try reflexivity; try discriminate.
Qed.

Lemma isNaN_abs (x : number) : isNaN (Math_abs x) = isNaN x.
Proof. now destruct x. Qed.

(** The decimal literals denote the correctly rounded quotients, and the
    kernel's [SQRT2_INV] is the value one unit below [Math.SQRT1_2]. *)
Lemma literals_rounded :
  div n1 (lit 1e15%float) = e_15
  /\ div n1 (lit 1e12%float) = e_12
  /\ div n1 (lit 1e16%float) = e_16
  /\ Quantum.SQRT2_INV = SFpred prec emax Math_SQRT1_2.
Proof. vm_compute. repeat split. Qed.

End NumberFacts.

(* ================================================================= *)
(** ** The kernel *)

Module QuantumFacts.

Import Quantum NumberFacts.
Local Open Scope num_scope.

(** *** The constructor *)

Lemma clean_snapped (x : number) :
  snapped (clean x) || isNaN (clean x) = true.
Proof.
  unfold clean, snapped.
  destruct (Math_abs x <? e_15) eqn:L; [reflexivity | ].
  destruct (isNaN x) eqn:N; [now rewrite orb_true_r | ].
  rewrite (not_ltb_leb _ _ L); [now rewrite orb_true_r | | reflexivity].
  now rewrite isNaN_abs.
Qed.

Lemma new_Complex_snapped (x y : number) : Complex_snapped (new_Complex x y).
Proof. split; apply clean_snapped. Qed.

(** C7, as the code has it: every value built by the kernel's
    constructor, hence every result of [multiply], [add], [subtract],
    [conjugate], [normalize] and [fromPolar], has each component either
    zero, or of magnitude at least [1e-15], or [NaN]. *)
Theorem constructor_snaps :
  (forall x y, Complex_snapped (new_Complex x y))
  /\ (forall a b, Complex_snapped (multiply a b))
  /\ (forall a b, Complex_snapped (add a b))
  /\ (forall a b, Complex_snapped (subtract a b))
  /\ (forall a, Complex_snapped (conjugate a))
  /\ (forall a, Complex_snapped (normalize a))
  /\ (forall cos sin m p, Complex_snapped (fromPolar cos sin m p)).
Proof.
  repeat split; intros; try apply clean_snapped.
  - unfold normalize. destruct (strict_eq _ _); apply clean_snapped.
  - unfold normalize. destruct (strict_eq _ _); apply clean_snapped.
Qed.

(** C7, as stated, fails: the [Complex] class of [App.tsx] keeps a
    component of [1e-16] as it is, and the kernel's constructor keeps a
    [NaN]; neither is zero nor of magnitude [1e-15] or more. *)
Lemma constructor_snaps_counterexample :
  App.re (App.new_Complex1 e_16) = e_16
  /\ snapped (App.re (App.new_Complex1 e_16)) = false
  /\ snapped (re (new_Complex1 NaN)) = false.
Proof. repeat split. Qed.

(** *** The registry *)

Lemma phase_matrix_unitary (c s : number) :
  In c (within2 Math_SQRT1_2) -> In s (within2 Math_SQRT1_2) ->
  isUnitary (phase_matrix c s) e_12 = true
  /\ isUnitary (phase_matrix c (- s)) e_12 = true.
Proof.
  intros Hc Hs.
  assert (A : forallb (fun c => forallb (fun s =>
                isUnitary (phase_matrix c s) e_12
                && isUnitary (phase_matrix c (- s)) e_12)
                (within2 Math_SQRT1_2)) (within2 Math_SQRT1_2) = true)
    by (vm_compute; reflexivity).
  rewrite forallb_forall in A. specialize (A c Hc).
  rewrite forallb_forall in A. specialize (A s Hs).
  now apply andb_prop in A.
Qed.

Section Unitarity.

Variables Math_cos Math_sin : number -> number.
Hypothesis accurate : trig_accurate Math_cos Math_sin = true.

(** C4: every gate of the registry passes [isUnitary] at the
    tolerance [1e-12], whatever [Math.cos] and [Math.sin] return at
    [PI_4] and [-PI_4] within two units in the last place. *)
Theorem registry_is_unitary (g : Gate) :
  isUnitary (GATES Math_cos Math_sin g) e_12 = true.
Proof.
  unfold trig_accurate in accurate.
  apply andb_prop in accurate as [A Hs'].
  apply andb_prop in A as [A Hc'].
  apply andb_prop in A as [Hc Hs].
  apply near_In in Hc, Hs, Hc', Hs'.
  destruct g.
  6: exact (proj1 (phase_matrix_unitary _ _ Hc Hs)).
  7: { change (isUnitary (phase_matrix (Math_cos (- PI_4))
                                      (Math_sin (- PI_4))) e_12 = true).
       rewrite <- (neg_involutive (Math_sin (- PI_4))).
       exact (proj2 (phase_matrix_unitary _ _ Hc' Hs')). }
  all: vm_compute; reflexivity.
Qed.

End Unitarity.

(** The hypothesis on the host holds of [Host], and the registry is
    unitary there. *)
Lemma registry_is_unitary_witness :
  trig_accurate Host.Math_cos Host.Math_sin = true
  /\ forall g, isUnitary (GATES Host.Math_cos Host.Math_sin g) e_12 = true.
Proof.
  split; [ vm_compute; reflexivity | ].
  intros g.
  apply (registry_is_unitary Host.Math_cos Host.Math_sin).
  vm_compute; reflexivity.
Defined.

(** C5: for each of [H], [X], [Y], [Z] the product of the gate's matrix
    with itself agrees with the identity matrix within [1e-12] on every
    entry. *)
Theorem self_inverse_gates (Math_cos Math_sin : number -> number) :
  Forall (fun g =>
            Matrix_equals
              (multiplyMatrices (GATES Math_cos Math_sin g)
                                (GATES Math_cos Math_sin g))
              getIdentityMatrix e_12 = true)
         [GateName.H; GateName.X; GateName.Y; GateName.Z].
Proof. repeat constructor. Qed.

(** *** Statistics *)

(** C6, as stated, fails: the vector with both amplitudes [0.5 + 0.5i]
    has squared magnitudes summing to exactly [1], and its purity is
    [0.5]; so is the purity of the vector [H] makes of [(1, 0)]. *)
Lemma purity_counterexample :
  let v := (new_Complex n0_5 n0_5, new_Complex n0_5 n0_5) in
  let plus := applyMatrix (GATES Host.Math_cos Host.Math_sin GateName.H)
                          (Complex_one, Complex_zero) in
  magnitudeSquared (fst v) + magnitudeSquared (snd v) = 1
  /\ isNormalized v e_12 = true
  /\ calculatePurity v = n0_5
  /\ calculatePurity v <> 1
  /\ isNormalized plus e_12 = true
  /\ calculatePurity plus = n0_5.
Proof. vm_compute. repeat split. discriminate. Qed.

(** C6, as the code has it: when the squared magnitudes of the two
    amplitudes are [1] and [0], in either order, the purity is [1]. *)
Theorem purity_of_basis_state (v : StateVector) :
  (magnitudeSquared (fst v) = 1 /\ magnitudeSquared (snd v) = 0)
  \/ (magnitudeSquared (fst v) = 0 /\ magnitudeSquared (snd v) = 1) ->
  calculatePurity v = 1.
Proof.
  unfold calculatePurity, calculateProbabilities.
  intros [[E0 E1] | [E0 E1]]; rewrite E0, E1; vm_compute; reflexivity.
Qed.

(** The basis vectors [(1, 0)] and [(0, i)] have purity [1]. *)
Lemma purity_of_basis_state_witness :
  calculatePurity (Complex_one, Complex_zero) = 1
  /\ calculatePurity (Complex_zero, Complex_i) = 1.
Proof.
  split; apply purity_of_basis_state.
  - left. vm_compute. split; reflexivity.
  - right. vm_compute. split; reflexivity.
Defined.

(** C9: on a vector whose four components are zeros (of either sign)
    the divisor is zero and both probabilities are [NaN], in the kernel
    and in [App.tsx] alike. *)
Theorem probabilities_of_zero_vector (s1 s2 s3 s4 : bool) :
  let z := S754_zero in
  let v := (new_Complex (z s1) (z s2), new_Complex (z s3) (z s4)) in
  let w := (App.new_Complex (z s1) (z s2), App.new_Complex (z s3) (z s4)) in
  magnitudeSquared (fst v) + magnitudeSquared (snd v) = 0
  /\ isNaN (prob0 (calculateProbabilities v)) = true
  /\ isNaN (prob1 (calculateProbabilities v)) = true
  /\ App.normalizationFactor (App.calculateProbabilities w) = 0
  /\ isNaN (App.prob0 (App.calculateProbabilities w)) = true
  /\ isNaN (App.prob1 (App.calculateProbabilities w)) = true.
Proof. destruct s1, s2, s3, s4; vm_compute; repeat split. Qed.

End QuantumFacts.

(* ================================================================= *)
(** ** The composition engine *)

Module AppFacts.

Import App.
Local Open Scope Z_scope.

(** *** The history log *)

Lemma saveToHistory_pointer ops state matrix (s : AppState) :
  snd (saveToHistory ops state matrix s)
  = Z.of_nat (List.length (fst (saveToHistory ops state matrix s))) - 1.
Proof. reflexivity. Qed.

Lemma saveToHistory_nonempty ops state matrix (s : AppState) :
  fst (saveToHistory ops state matrix s) <> [].
Proof.
  unfold saveToHistory; cbn [fst].
  set (h := slice0 (history s) (historyIndex s + 1) ++ _).
  destruct (100 <? Z.of_nat (List.length h)) eqn:L.
  - apply Z.ltb_lt in L. destruct h as [ | a [ | b h]]; cbn in *; try lia.
    discriminate.
  - subst h. intros E. now apply app_eq_nil in E as [_ E].
Qed.

(** A state whose pointer is on the last entry has nothing to redo. *)
Lemma redo_at_end (s : AppState) :
  historyIndex s = Z.of_nat (List.length (history s)) - 1 ->
  redo s = Some s.
Proof.
  intros E. unfold redo.
  now rewrite E, Z.ltb_irrefl.
Qed.

(** A state whose pointer is on the first entry, or before it, has
    nothing to undo. *)
Lemma undo_at_start (s : AppState) : historyIndex s <= 0 -> undo s = Some s.
Proof.
  intros L. unfold undo.
  destruct (historyIndex s >? 0) eqn:G; [ | reflexivity].
  apply Z.gtb_lt in G. lia.
Qed.

Lemma undo_history (s s' : AppState) :
  undo s = Some s' -> history s' = history s.
Proof.
  unfold undo. destruct (historyIndex s >? 0).
  - destruct (index _ _); [ | discriminate]. now intros [= <-].
  - now intros [= <-].
Qed.

Lemma redo_history (s s' : AppState) :
  redo s = Some s' -> history s' = history s.
Proof.
  unfold redo. destruct (historyIndex s <? _).
  - destruct (index _ _); [ | discriminate]. now intros [= <-].
  - now intros [= <-].
Qed.

Lemma index_Some {A : Type} (a : list A) (i : Z) :
  0 <= i < Z.of_nat (List.length a) -> exists x, index a i = Some x.
Proof.
  intros B. unfold index.
  destruct (i <? 0) eqn:L; [apply Z.ltb_lt in L; lia | ].
  destruct (nth_error a (Z.to_nat i)) eqn:E; [now eexists | ].
  apply nth_error_None in E. lia.
Qed.

Lemma saved_history_ok ops state matrix (s : AppState) (p : HistoryState) :
  history_ok {| present := p;
                history := fst (saveToHistory ops state matrix s);
                historyIndex := snd (saveToHistory ops state matrix s) |}.
Proof.
  unfold history_ok; cbn [history historyIndex].
  rewrite saveToHistory_pointer. lia.
Qed.

Section WithHost.

Variables Math_cos Math_sin : number -> number.

Local Abbreviation GATES := (GATES Math_cos Math_sin).
Local Abbreviation addGate := (addGate Math_cos Math_sin).
Local Abbreviation removeOperation := (removeOperation Math_cos Math_sin).
Local Abbreviation step := (step Math_cos Math_sin).
Local Abbreviation run := (run Math_cos Math_sin).
Local Abbreviation append_all := (append_all Math_cos Math_sin).
Local Abbreviation recompute := (recompute Math_cos Math_sin).
Local Abbreviation product_right_to_left :=
  (product_right_to_left Math_cos Math_sin).

(** No action of the engine throws on a well-formed history, and each
    leaves the history well formed. *)
Lemma step_history_ok (s : AppState) (a : Action) :
  history_ok s -> exists s', step s a = Some s' /\ history_ok s'.
Proof.
  intros Hok. destruct a as [newId now g | operationId | | | ]; cbn [step].
  - eexists; split; [reflexivity | apply saved_history_ok].
  - eexists; split; [reflexivity | apply saved_history_ok].
  - eexists; split; [reflexivity | apply saved_history_ok].
  - unfold undo, history_ok in *.
    destruct (historyIndex s >? 0) eqn:G; [ | now eexists].
    apply Z.gtb_lt in G.
    destruct (index_Some (history s) (historyIndex s - 1)) as [x ->];
      [lia | ].
    eexists; split; [reflexivity | cbn; lia].
  - unfold redo, history_ok in *.
    destruct (historyIndex s <? _) eqn:G; [ | now eexists].
    apply Z.ltb_lt in G.
    destruct (index_Some (history s) (historyIndex s + 1)) as [x ->];
      [lia | ].
    eexists; split; [reflexivity | cbn; lia].
Qed.

Lemma run_history_ok (actions : list Action) (s : AppState) :
  history_ok s -> exists s', run s actions = Some s' /\ history_ok s'.
Proof.
  revert s. induction actions as [ | a rest IH]; intros s Hok; cbn [App.run].
  - now exists s.
  - destruct (step_history_ok s a Hok) as [s' [-> Hok']]. now apply IH.
Qed.

Lemma initial_history_ok : history_ok initial.
Proof. unfold history_ok; cbn; lia. Qed.

(** *** The composite matrix *)

(** [addGate] keeps the composite equal to the right-to-left product
    of the sequence. *)
Lemma addGate_product (newId : string) (now : Z) (g : Gate) (s : AppState) :
  compositeMatrix (present s) = product_right_to_left (operations (present s)) ->
  compositeMatrix (present (addGate newId now g s))
  = product_right_to_left (operations (present (addGate newId now g s))).
Proof.
  intros E. cbn. unfold App.product_right_to_left.
  rewrite fold_left_app. cbn. now rewrite E.
Qed.

Lemma append_all_operations (ops : list GateOperation) (s : AppState) :
  operations (present (append_all ops s)) = operations (present s) ++ ops.
Proof.
  revert s. induction ops as [ | [i g t] ops IH]; intros s; cbn.
  - now rewrite app_nil_r.
  - unfold App.append_all in IH. rewrite IH. cbn. now rewrite <- app_assoc.
Qed.

Lemma append_all_product (ops : list GateOperation) (s : AppState) :
  compositeMatrix (present s) = product_right_to_left (operations (present s)) ->
  compositeMatrix (present (append_all ops s))
  = product_right_to_left (operations (present (append_all ops s))).
Proof.
  revert s. induction ops as [ | [i g t] ops IH]; intros s E; cbn.
  - exact E.
  - apply IH. now apply addGate_product.
Qed.

(** What the loop of [removeOperation] computes: the product with the
    first gate of the sequence leftmost,
    [G_1 * (G_2 * (... * (G_n * I)))]. *)
Lemma recompute_first_leftmost (ops : list GateOperation) :
  recompute ops
  = fold_right (fun op m => multiplyMatrices (GATES (gate op)) m)
               getIdentityMatrix ops.
Proof.
  unfold App.recompute.
  now rewrite <- fold_left_rev_right, rev_involutive.
Qed.

(** After [removeOperation] the vector is the composite applied to
    the initial vector. *)
Lemma removeOperation_state (operationId : string) (s : AppState) :
  currentState (present (removeOperation operationId s))
  = applyMatrix (compositeMatrix (present (removeOperation operationId s)))
                initialVector.
Proof. reflexivity. Qed.

(** An identifier absent from the sequence leaves the sequence as it
    is. *)
Lemma removeOperation_unknown_sequence (operationId : string) (s : AppState) :
  (forall op, In op (operations (present s)) -> id op <> operationId) ->
  operations (present (removeOperation operationId s))
  = operations (present s).
Proof.
  intros Hfresh. cbn.
  induction (operations (present s)) as [ | op ops IH]; cbn; [reflexivity | ].
  destruct (String.eqb_spec (id op) operationId) as [E | _].
  - exfalso. apply (Hfresh op); [now left | exact E].
  - cbn. f_equal. apply IH. intros op' Hin. apply Hfresh. now right.
Qed.

(** *** The claims about the engine *)

(** C1, at a failing input: after appending [X], [Z] and [S] and
    removing the [S], the sequence is [X; Z] and the vector is the
    composite applied to [(1, 0)], but the composite is [X * Z], not
    the right-to-left product [Z * X]; the two differ numerically. *)
Theorem remove_breaks_composition_invariant :
  let s := removeOperation "c"
             (addGate "c" 3 GateName.S
                (addGate "b" 2 GateName.Z
                   (addGate "a" 1 GateName.X initial))) in
  map gate (operations (present s)) = [GateName.X; GateName.Z]
  /\ compositeMatrix (present s)
     = multiplyMatrices (GATES GateName.X)
         (multiplyMatrices (GATES GateName.Z) getIdentityMatrix)
  /\ product_right_to_left (operations (present s))
     = multiplyMatrices (GATES GateName.Z)
         (multiplyMatrices (GATES GateName.X) getIdentityMatrix)
  /\ Matrix_eq (compositeMatrix (present s))
               (product_right_to_left (operations (present s))) = false
  /\ currentState (present s)
     = applyMatrix (compositeMatrix (present s)) initialVector
  /\ ~ composition_invariant Math_cos Math_sin (present s).
Proof.
  cbv zeta. repeat split.
  intros [E _]. vm_compute in E. discriminate E.
Qed.

(** C2, at a failing input: from the sequence [H; X; Z] built by
    [addGate], removing the middle [X] leaves the composite [H * Z],
    while [H] then [Z] appended from the reset state give [Z * H]. *)
Theorem remove_differs_from_rebuild :
  let built :=
    append_all [ {| id := "a"; gate := GateName.H; timestamp := 1 |};
                 {| id := "b"; gate := GateName.X; timestamp := 2 |};
                 {| id := "c"; gate := GateName.Z; timestamp := 3 |} ]
               initial in
  let removed := removeOperation "b" built in
  let rebuilt := append_all (operations (present removed)) initial in
  operations (present rebuilt) = operations (present removed)
  /\ compositeMatrix (present removed)
     = multiplyMatrices (GATES GateName.H)
         (multiplyMatrices (GATES GateName.Z) getIdentityMatrix)
  /\ compositeMatrix (present rebuilt)
     = multiplyMatrices (GATES GateName.Z)
         (multiplyMatrices (GATES GateName.H) getIdentityMatrix)
  /\ Matrix_eq (compositeMatrix (present removed))
               (compositeMatrix (present rebuilt)) = false.
Proof. cbv zeta. repeat split. Qed.


(** C8: after one [undo], an [addGate] records its snapshot on the
    entries up to the pointer, dropping those ahead of it, and leaves
    the pointer on the last entry; the [redo] that follows changes
    nothing. *)
Theorem redo_after_undo_and_add (s s1 : AppState)
    (newId : string) (now : Z) (g : Gate) :
  undo s = Some s1 ->
  let s2 := addGate newId now g s1 in
  let kept := slice0 (history s) (historyIndex s1 + 1) ++ [present s2] in
  redo s2 = Some s2
  /\ history s2
     = (if 100 <? Z.of_nat (List.length kept) then shift kept else kept)
  /\ historyIndex s2 = Z.of_nat (List.length (history s2)) - 1.
Proof.
  intros U. cbv zeta. rewrite <- (undo_history _ _ U).
  split; [ | split; reflexivity].
  apply redo_at_end. reflexivity.
Qed.

(** C10: the log starts empty with the pointer at [-1]; after the
    first [addGate] it holds the one snapshot taken after the gate, so
    the initial triple is not in it; any number of [undo] calls then
    leaves the state as it is, and its triple is not the initial
    one. *)
Theorem undo_never_reaches_initial
    (newId : string) (now : Z) (g : Gate) (n : nat) :
  let s1 := addGate newId now g initial in
  history initial = []
  /\ historyIndex initial = -1
  /\ history s1 = [present s1]
  /\ historyIndex s1 = 0
  /\ undo s1 = Some s1
  /\ undo_n n s1 = Some s1
  /\ present s1 <> present initial
  /\ ~ In (present initial) (history s1).
Proof.
  cbv zeta. repeat split.
  - induction n as [ | n IH]; [reflexivity | exact IH].
  - intros E. apply (f_equal operations) in E. discriminate E.
  - intros [E | []]. apply (f_equal operations) in E. discriminate E.
Qed.

End WithHost.



(** Two gates appended, one [undo], a third gate: [redo] changes nothing
    and the log holds two entries. *)
Lemma redo_after_undo_and_add_witness :
  let s := addGate Host.Math_cos Host.Math_sin "b" 2 Quantum.GateName.X
             (addGate Host.Math_cos Host.Math_sin "a" 1 Quantum.GateName.H
                initial) in
  let s1 := {| present := present (addGate Host.Math_cos Host.Math_sin "a" 1
                                     Quantum.GateName.H initial);
               history := history s;
               historyIndex := 0 |} in
  let s2 := addGate Host.Math_cos Host.Math_sin "c" 3 Quantum.GateName.Z s1 in
  undo s = Some s1
  /\ redo s2 = Some s2
  /\ List.length (history s2) = 2%nat.
Proof.
  cbv zeta. split; [reflexivity | ].
  split; [ | reflexivity].
  refine (proj1 (redo_after_undo_and_add Host.Math_cos Host.Math_sin
                   (addGate Host.Math_cos Host.Math_sin "b" 2
                      Quantum.GateName.X
                      (addGate Host.Math_cos Host.Math_sin "a" 1
                         Quantum.GateName.H initial))
                   _ "c"%string 3 Quantum.GateName.Z _)).
  reflexivity.
Defined.

End AppFacts.

(* ================================================================= *)
(** ** The history of the engine *)

Module EngineFacts.

Import App Engine AppFacts.
Local Open Scope Z_scope.

(** *** Reading the log *)

Lemma index_app_last {A : Type} (l : list A) (x : A) :
  index (l ++ [x]) (Z.of_nat (List.length l)) = Some x.
Proof.
  unfold index.
  destruct (Z.of_nat (List.length l) <? 0) eqn:L; [apply Z.ltb_lt in L; lia | ].
  rewrite Nat2Z.id, nth_error_app2, Nat.sub_diag; [reflexivity | lia].
Qed.

Lemma index_app_left {A : Type} (l r : list A) (i : Z) :
  i < Z.of_nat (List.length l) -> index (l ++ r) i = index l i.
Proof.
  intros B. unfold index. destruct (i <? 0) eqn:L; [reflexivity | ].
  apply Z.ltb_ge in L. apply nth_error_app1. lia.
Qed.

Lemma index_tl {A : Type} (l : list A) (i : Z) :
  0 <= i -> index (tl l) i = index l (i + 1).
Proof.
  intros B. unfold index.
  destruct (i <? 0) eqn:L; [apply Z.ltb_lt in L; lia | ].
  destruct (i + 1 <? 0) eqn:L'; [apply Z.ltb_lt in L'; lia | ].
  replace (Z.to_nat (i + 1)) with (Datatypes.S (Z.to_nat i)) by lia.
  destruct l as [ | a l]; [now destruct (Z.to_nat i) | reflexivity].
Qed.

Lemma length_tl_Z {A : Type} (l : list A) :
  0 < Z.of_nat (List.length l) ->
  Z.of_nat (List.length (tl l)) = Z.of_nat (List.length l) - 1.
Proof. destruct l as [ | a l]; cbn [tl List.length]; lia. Qed.

Lemma index_firstn {A : Type} (l : list A) (n : nat) (i : Z) :
  i < Z.of_nat n -> index (firstn n l) i = index l i.
Proof.
  intros B. unfold index. destruct (i <? 0) eqn:L; [reflexivity | ].
  apply Z.ltb_ge in L. rewrite nth_error_firstn.
  destruct (Nat.ltb_spec (Z.to_nat i) n); [reflexivity | lia].
Qed.

Lemma index_In {A : Type} (l : list A) (i : Z) (x : A) :
  index l i = Some x -> In x l.
Proof.
  unfold index. destruct (i <? 0); [discriminate | apply nth_error_In].
Qed.

Lemma slice0_firstn {A : Type} (a : list A) (end_ : Z) :
  0 <= end_ <= Z.of_nat (List.length a) ->
  slice0 a end_ = firstn (Z.to_nat end_) a.
Proof.
  intros B. unfold slice0.
  destruct (end_ <? 0) eqn:L; [apply Z.ltb_lt in L; lia | ].
  now rewrite Z.min_l by lia.
Qed.

Lemma slice0_incl {A : Type} (a : list A) (end_ : Z) (x : A) :
  In x (slice0 a end_) -> In x a.
Proof.
  unfold slice0. intros Hin.
  rewrite <- (firstn_skipn (Z.to_nat (if end_ <? 0
                                       then Z.max (Z.of_nat (List.length a) + end_) 0
                                       else Z.min end_ (Z.of_nat (List.length a)))) a).
  apply in_or_app. now left.
Qed.

Lemma slice0_length {A : Type} (a : list A) (end_ : Z) :
  (List.length (slice0 a end_) <= List.length a)%nat.
Proof. unfold slice0. rewrite length_firstn. lia. Qed.

(** *** What [saveToHistory] leaves in the log *)

Section Save.

Variables (ops : list GateOperation) (state : StateVector)
          (matrix : Matrix2x2) (s : AppState).

Local Abbreviation snapshot :=
  {| operations := ops; currentState := state; compositeMatrix := matrix |}.

Local Abbreviation kept := (kept_entries snapshot s).

Lemma save_cases :
  fst (saveToHistory ops state matrix s)
  = (if 100 <? Z.of_nat (List.length kept) then tl kept else kept).
Proof. reflexivity. Qed.

Lemma kept_length :
  history_ok s -> Z.of_nat (List.length kept) = historyIndex s + 2.
Proof.
  intros Hok. unfold history_ok in Hok. unfold kept_entries.
  rewrite length_app, slice0_firstn, length_firstn by lia. cbn. lia.
Qed.

(** Every entry of the new log is the snapshot or an entry of the old
    log. *)
Lemma save_entries (x : HistoryState) :
  In x (fst (saveToHistory ops state matrix s)) ->
  x = snapshot \/ In x (history s).
Proof.
  rewrite save_cases. intros Hin.
  assert (K : In x kept).
  { destruct (100 <? _); [ | exact Hin].
    destruct kept; [contradiction | now right]. }
  unfold kept_entries in K. apply in_app_or in K as [K | [K | []]].
  - right. eapply slice0_incl, K.
  - now left.
Qed.

(** The pointer is left on the snapshot. *)
Lemma save_pointed :
  index (fst (saveToHistory ops state matrix s))
        (snd (saveToHistory ops state matrix s)) = Some snapshot.
Proof.
  rewrite saveToHistory_pointer, save_cases.
  pose proof (index_app_last (slice0 (history s) (historyIndex s + 1)) snapshot)
    as Last.
  change (slice0 (history s) (historyIndex s + 1) ++ [snapshot])
    with kept in Last.
  assert (Len : Z.of_nat (List.length kept)
                = Z.of_nat (List.length (slice0 (history s) (historyIndex s + 1))) + 1).
  { unfold kept_entries. rewrite length_app. cbn. lia. }
  destruct (100 <? Z.of_nat (List.length kept)) eqn:Full.
  - apply Z.ltb_lt in Full.
    assert (T : Z.of_nat (List.length (tl kept)) = Z.of_nat (List.length kept) - 1)
      by (apply length_tl_Z; lia).
    rewrite index_tl by lia. rewrite T.
    replace (Z.of_nat (List.length kept) - 1 - 1 + 1)
      with (Z.of_nat (List.length (slice0 (history s) (historyIndex s + 1))))
      by lia.
    exact Last.
  - replace (Z.of_nat (List.length kept) - 1)
      with (Z.of_nat (List.length (slice0 (history s) (historyIndex s + 1))))
      by lia.
    exact Last.
Qed.

(** The entry before the snapshot is the one the pointer designated. *)
Lemma save_previous :
  history_ok s -> 0 <= historyIndex s ->
  0 < snd (saveToHistory ops state matrix s)
  /\ index (fst (saveToHistory ops state matrix s))
           (snd (saveToHistory ops state matrix s) - 1)
     = index (history s) (historyIndex s).
Proof.
  intros Hok Pos. pose proof (kept_length Hok) as Len.
  unfold history_ok in Hok.
  assert (Old : index kept (historyIndex s) = index (history s) (historyIndex s)).
  { unfold kept_entries. rewrite index_app_left.
    - rewrite slice0_firstn by lia. apply index_firstn. lia.
    - rewrite slice0_firstn, length_firstn by lia. lia. }
  rewrite saveToHistory_pointer, save_cases.
  destruct (100 <? Z.of_nat (List.length kept)) eqn:Full.
  - apply Z.ltb_lt in Full.
    assert (T : Z.of_nat (List.length (tl kept)) = Z.of_nat (List.length kept) - 1)
      by (apply length_tl_Z; lia).
    rewrite T. split; [lia | ].
    rewrite index_tl by lia.
    replace (Z.of_nat (List.length kept) - 1 - 1 - 1 + 1) with (historyIndex s)
      by lia.
    exact Old.
  - split; [lia | ].
    replace (Z.of_nat (List.length kept) - 1 - 1) with (historyIndex s) by lia.
    exact Old.
Qed.

Lemma save_bounded :
  (List.length (history s) <= 100)%nat ->
  (List.length (fst (saveToHistory ops state matrix s)) <= 100)%nat.
Proof.
  intros B. rewrite save_cases.
  assert (Len : (List.length kept <= 101)%nat).
  { unfold kept_entries. rewrite length_app.
    pose proof (slice0_length (history s) (historyIndex s + 1)). cbn. lia. }
  destruct (100 <? Z.of_nat (List.length kept)) eqn:Full.
  - apply Z.ltb_lt in Full.
    pose proof (length_tl_Z kept ltac:(lia)). lia.
  - apply Z.ltb_ge in Full. lia.
Qed.

End Save.

(** Every recorded action leaves the history invariant established,
    whatever the state before. *)
Lemma saved_history_inv ops state matrix (s : AppState) :
  (List.length (history s) <= 100)%nat ->
  history_inv
    {| present := {| operations := ops; currentState := state;
                     compositeMatrix := matrix |};
       history := fst (saveToHistory ops state matrix s);
       historyIndex := snd (saveToHistory ops state matrix s) |}.
Proof.
  intros B. split; [ | split; [ | split]].
  - apply saved_history_ok.
  - intros _. apply save_pointed.
  - intros Neg. cbn [historyIndex] in Neg.
    rewrite saveToHistory_pointer in Neg.
    pose proof (saveToHistory_nonempty ops state matrix s) as N.
    destruct (fst (saveToHistory ops state matrix s));
      [easy | cbn [List.length] in Neg; lia].
  - apply save_bounded, B.
Qed.

Section WithHost.

Variables Math_cos Math_sin : number -> number.

Local Abbreviation GATES := (GATES Math_cos Math_sin).
Local Abbreviation addGate := (addGate Math_cos Math_sin).
Local Abbreviation removeOperation := (removeOperation Math_cos Math_sin).
Local Abbreviation step := (step Math_cos Math_sin).
Local Abbreviation run := (run Math_cos Math_sin).
Local Abbreviation recompute := (recompute Math_cos Math_sin).
Local Abbreviation product_right_to_left :=
  (product_right_to_left Math_cos Math_sin).

Lemma step_history_inv (s s' : AppState) (a : Action) :
  history_inv s -> step s a = Some s' -> history_inv s'.
Proof.
  intros (Hok & Sync & Start & Bound).
  destruct a as [newId now g | operationId | | | ]; cbn [App.step].
  - intros [= <-]. now apply saved_history_inv.
  - intros [= <-]. now apply saved_history_inv.
  - intros [= <-]. now apply saved_history_inv.
  - unfold undo. destruct (historyIndex s >? 0) eqn:G.
    + apply Z.gtb_lt in G.
      destruct (index (history s) (historyIndex s - 1)) as [prev | ] eqn:E;
        [ | discriminate].
      intros [= <-]. unfold history_ok in Hok.
      split; [ | split; [ | split]]; cbn; try assumption.
      * unfold history_ok; cbn; lia.
      * intros _. exact E.
      * intros Neg. cbn in Neg. lia.
    + intros [= <-]. now split; [ | split; [ | split]].
  - unfold redo. destruct (historyIndex s <? _) eqn:G.
    + apply Z.ltb_lt in G.
      destruct (index (history s) (historyIndex s + 1)) as [next | ] eqn:E;
        [ | discriminate].
      intros [= <-]. unfold history_ok in Hok.
      split; [ | split; [ | split]]; cbn; try assumption.
      * unfold history_ok; cbn; lia.
      * intros _. exact E.
      * intros Neg. cbn in Neg. lia.
    + intros [= <-]. now split; [ | split; [ | split]].
Qed.

Lemma initial_history_inv : history_inv initial.
Proof.
  split; [ | split; [ | split]].
  - exact initial_history_ok.
  - intros Pos. cbn in Pos. lia.
  - intros _. reflexivity.
  - cbn. lia.
Qed.

Lemma run_history_inv (actions : list Action) (s s' : AppState) :
  history_inv s -> run s actions = Some s' -> history_inv s'.
Proof.
  revert s. induction actions as [ | a rest IH]; intros s Inv; cbn [App.run].
  - now intros [= <-].
  - destruct (step s a) as [s1 | ] eqn:E; [ | discriminate].
    apply IH. eapply step_history_inv; eassumption.
Qed.

(** X1: whatever the actions, the engine never reads outside its log:
    every run from the initial state ends in a state whose pointer is
    [-1] or designates an entry, and whose log holds at most 100
    entries. *)
Theorem run_is_safe_and_bounded (actions : list Action) :
  exists s, run initial actions = Some s
            /\ -1 <= historyIndex s < Z.of_nat (List.length (history s))
            /\ (List.length (history s) <= 100)%nat.
Proof.
  destruct (run_history_ok Math_cos Math_sin actions initial initial_history_ok)
    as [s [R Hok]].
  exists s. split; [exact R | ]. split; [exact Hok | ].
  now destruct (run_history_inv actions initial s initial_history_inv R)
    as (_ & _ & _ & B).
Qed.

(** X2: in every state a run from the initial state reaches, the triple
    on display is the log entry under the pointer; the pointer is
    negative only in the initial state itself. *)
Theorem present_is_pointed_entry (actions : list Action) (s : AppState) :
  run initial actions = Some s ->
  (0 <= historyIndex s ->
   index (history s) (historyIndex s) = Some (present s))
  /\ (historyIndex s < 0 -> s = initial).
Proof.
  intros R.
  destruct (run_history_inv actions initial s initial_history_inv R)
    as (_ & Sync & Start & _).
  now split.
Qed.

(** X3: once some action has been recorded, the [undo] that follows an
    [addGate], a [removeOperation] or a [reset] brings back the triple
    displayed before it, and [redo] then returns to the state after
    it. *)
Theorem undo_reverts_last_action
    (actions : list Action) (s : AppState) (a : Action) :
  run initial actions = Some s ->
  0 <= historyIndex s ->
  is_mutation a = true ->
  exists s' s'',
    step s a = Some s'
    /\ undo s' = Some s''
    /\ present s'' = present s
    /\ redo s'' = Some s'.
Proof.
  intros R Pos Mut.
  destruct (run_history_inv actions initial s initial_history_inv R)
    as (Hok & Sync & _ & _).
  assert (K : forall ops state matrix,
    let s' := {| present := {| operations := ops; currentState := state;
                               compositeMatrix := matrix |};
                 history := fst (saveToHistory ops state matrix s);
                 historyIndex := snd (saveToHistory ops state matrix s) |} in
    exists s'', undo s' = Some s'' /\ present s'' = present s
                /\ redo s'' = Some s').
  { intros ops state matrix s'.
    destruct (save_previous ops state matrix s Hok Pos) as [Gt Prev].
    rewrite (Sync Pos) in Prev.
    eexists. split; [ | split].
    - unfold undo. subst s'. cbn [historyIndex history].
      apply Z.gtb_lt in Gt. rewrite Gt, Prev. reflexivity.
    - reflexivity.
    - unfold redo. cbn [historyIndex history].
      rewrite saveToHistory_pointer.
      replace (Z.of_nat (List.length (fst (saveToHistory ops state matrix s)))
               - 1 - 1 + 1)
        with (snd (saveToHistory ops state matrix s))
        by (rewrite saveToHistory_pointer; lia).
      rewrite save_pointed.
      destruct (_ <? _) eqn:L; [ | apply Z.ltb_ge in L; lia].
      subst s'. now rewrite saveToHistory_pointer. }
  destruct a as [newId now g | operationId | | | ]; try discriminate;
    cbn [App.step]; eexists; edestruct K as [s'' H'']; exists s'';
    (split; [reflexivity | exact H'']).
Qed.

(** X4: an [undo] that moves the pointer is cancelled by the next
    [redo]. *)
Theorem redo_cancels_undo (actions : list Action) (s : AppState) :
  run initial actions = Some s ->
  0 < historyIndex s ->
  exists s1, undo s = Some s1
             /\ historyIndex s1 = historyIndex s - 1
             /\ redo s1 = Some s.
Proof.
  intros R Pos.
  destruct (run_history_inv actions initial s initial_history_inv R)
    as (Hok & Sync & _ & _).
  unfold history_ok in Hok.
  destruct (index_Some (history s) (historyIndex s - 1)) as [prev E]; [lia | ].
  eexists. split; [ | split].
  - unfold undo. apply Z.gtb_lt in Pos. now rewrite Pos, E.
  - reflexivity.
  - unfold redo. cbn [historyIndex history].
    destruct (_ <? _) eqn:L; [ | apply Z.ltb_ge in L; lia].
    replace (historyIndex s - 1 + 1) with (historyIndex s) by lia.
    rewrite Sync by lia. now destruct s.
Qed.

(** X5: a [redo] that moves the pointer is cancelled by the next
    [undo]. *)
Theorem undo_cancels_redo (actions : list Action) (s : AppState) :
  run initial actions = Some s ->
  historyIndex s < Z.of_nat (List.length (history s)) - 1 ->
  exists s1, redo s = Some s1
             /\ historyIndex s1 = historyIndex s + 1
             /\ undo s1 = Some s.
Proof.
  intros R Lt.
  destruct (run_history_inv actions initial s initial_history_inv R)
    as (Hok & Sync & Start & _).
  unfold history_ok in Hok.
  assert (Pos : 0 <= historyIndex s).
  { destruct (Z.lt_ge_cases (historyIndex s) 0) as [Neg | ]; [ | assumption].
    rewrite (Start Neg) in Lt. cbn in Lt. lia. }
  destruct (index_Some (history s) (historyIndex s + 1)) as [next E]; [lia | ].
  eexists. split; [ | split].
  - unfold redo. apply Z.ltb_lt in Lt. now rewrite Lt, E.
  - reflexivity.
  - unfold undo. cbn [historyIndex history].
    destruct (_ >? 0) eqn:G;
      [ | rewrite Z.gtb_ltb in G; apply Z.ltb_ge in G; lia].
    replace (historyIndex s + 1 - 1) with (historyIndex s) by lia.
    rewrite Sync by lia. now destruct s.
Qed.

(** X6: at capacity (100 entries, the pointer on the last) a recorded
    action drops the oldest entry: the new log is the old one without
    its first entry, followed by the new triple, and the pointer stays
    at 99. *)
Theorem full_log_evicts_oldest (s : AppState) (a : Action) :
  List.length (history s) = 100%nat ->
  historyIndex s = 99 ->
  is_mutation a = true ->
  exists s', step s a = Some s'
             /\ history s' = tl (history s) ++ [present s']
             /\ historyIndex s' = 99.
Proof.
  intros Len Ptr Mut.
  assert (K : forall ops state matrix,
    let t := {| operations := ops; currentState := state;
                compositeMatrix := matrix |} in
    fst (saveToHistory ops state matrix s) = tl (history s) ++ [t]
    /\ snd (saveToHistory ops state matrix s) = 99).
  { intros ops state matrix t.
    assert (F : fst (saveToHistory ops state matrix s) = tl (history s) ++ [t]).
    { rewrite save_cases. unfold kept_entries.
      rewrite Ptr, slice0_firstn by lia.
      rewrite firstn_all2 by lia. rewrite length_app, Len. cbn.
      destruct (history s); [discriminate | reflexivity]. }
    split; [exact F | ].
    rewrite saveToHistory_pointer, F, length_app.
    destruct (history s); [discriminate | cbn in *; lia]. }
  destruct a as [newId now g | operationId | | | ]; try discriminate;
    cbn [App.step]; eexists; (split; [reflexivity | ]); apply K.
Qed.

(** *** The triple along a run *)

Lemma first_column_multiply (g m : Matrix2x2) :
  first_column (multiplyMatrices g m) = applyMatrix g (first_column m).
Proof. reflexivity. Qed.

Lemma addGate_coherent (newId : string) (now : Z) (g : Gate) (s : AppState) :
  coherent Math_cos Math_sin (present s) ->
  coherent Math_cos Math_sin (present (addGate newId now g s)).
Proof.
  intros [M V]. split.
  - now apply addGate_product.
  - cbn [App.addGate present currentState compositeMatrix].
    now rewrite first_column_multiply, V.
Qed.

Lemma step_everywhere (P : HistoryState -> Prop) :
  P (present initial) ->
  (forall newId now g s, P (present s) -> P (present (addGate newId now g s))) ->
  forall (a : Action) (s s' : AppState),
    is_remove a = false ->
    everywhere P s -> step s a = Some s' -> everywhere P s'.
Proof.
  intros Pinit Padd a s s' NoRemove [Pnow Plog].
  assert (Saved : forall ops state matrix,
    P {| operations := ops; currentState := state; compositeMatrix := matrix |} ->
    Forall P (fst (saveToHistory ops state matrix s))).
  { intros ops state matrix Pt. apply Forall_forall. intros x Hin.
    apply save_entries in Hin as [-> | Hin]; [exact Pt | ].
    now apply (proj1 (Forall_forall P (history s)) Plog). }
  destruct a as [newId now g | operationId | | | ]; cbn [App.step];
    try discriminate.
  - intros [= <-]. pose proof (Padd newId now g s Pnow) as Pt.
    split; [exact Pt | apply Saved, Pt].
  - intros [= <-]. split; [exact Pinit | apply Saved, Pinit].
  - unfold undo. destruct (historyIndex s >? 0); [ | now intros [= <-]].
    destruct (index _ _) as [prev | ] eqn:E; [ | discriminate].
    intros [= <-]. split; [ | exact Plog]. cbn.
    apply (proj1 (Forall_forall P (history s)) Plog).
    eapply index_In, E.
  - unfold redo. destruct (historyIndex s <? _); [ | now intros [= <-]].
    destruct (index _ _) as [next | ] eqn:E; [ | discriminate].
    intros [= <-]. split; [ | exact Plog]. cbn.
    apply (proj1 (Forall_forall P (history s)) Plog).
    eapply index_In, E.
Qed.

(** X7: along any run from the initial state that does not call
    [removeOperation], the triple on display and every recorded triple
    have the right-to-left product of their sequence as matrix and the
    first column of that matrix as vector. *)
Theorem run_without_remove_is_coherent
    (actions : list Action) (s : AppState) :
  forallb (fun a => negb (is_remove a)) actions = true ->
  run initial actions = Some s ->
  coherent Math_cos Math_sin (present s)
  /\ Forall (coherent Math_cos Math_sin) (history s).
Proof.
  assert (G : forall actions s0 s,
    forallb (fun a => negb (is_remove a)) actions = true ->
    everywhere (coherent Math_cos Math_sin) s0 ->
    run s0 actions = Some s ->
    everywhere (coherent Math_cos Math_sin) s).
  { clear actions s.
    induction actions as [ | a rest IH]; intros s0 s Hno Ev; cbn [App.run].
    - now intros [= <-].
    - cbn [forallb] in Hno. apply andb_prop in Hno as [Ha Hrest].
      destruct (step s0 a) as [s1 | ] eqn:E; [ | discriminate].
      apply IH; [exact Hrest | ].
      apply (step_everywhere (coherent Math_cos Math_sin)) with (a := a) (s := s0).
      + now split.
      + intros newId now g t. apply addGate_coherent.
      + now apply negb_true_iff in Ha.
      + exact Ev.
      + exact E. }
  intros Hno R. apply (G actions initial s Hno); [ | exact R].
  split; [now split | constructor].
Qed.

(** *** Removal *)

Lemma filter_twice {A : Type} (f : A -> bool) (l : list A) :
  filter f (filter f l) = filter f l.
Proof.
  induction l as [ | a l IH]; cbn; [reflexivity | ].
  destruct (f a) eqn:E; cbn; [rewrite E; now f_equal | exact IH].
Qed.

(** X8: removing the same identifier a second time changes nothing in
    the triple: sequence, vector and matrix are those of the first
    removal. *)
Theorem remove_twice_same_triple (operationId : string) (s : AppState) :
  present (removeOperation operationId (removeOperation operationId s))
  = present (removeOperation operationId s).
Proof.
  cbn [App.removeOperation present operations].
  now rewrite filter_twice.
Qed.

(** X9: removing an identifier that every operation of the sequence
    carries gives back the initial triple: the empty sequence, the vector
    [(1, 0)] and the identity matrix. *)
Theorem remove_all_is_initial_triple (operationId : string) (s : AppState) :
  (forall op, In op (operations (present s)) -> id op = operationId) ->
  present (removeOperation operationId s) = present initial.
Proof.
  intros All. cbn [App.removeOperation present].
  assert (E : filter (fun op => negb (String.eqb (id op) operationId))
                     (operations (present s)) = []).
  { induction (operations (present s)) as [ | op ops IH]; [reflexivity | ].
    cbn. rewrite (All op (or_introl eq_refl)), String.eqb_refl. cbn.
    apply IH. intros op' Hin. apply All. now right. }
  rewrite E. reflexivity.
Qed.

(** X10: when at most one operation is left after a removal, the matrix
    it leaves is the right-to-left product of what is left. *)
Theorem remove_leaving_one_is_product (operationId : string) (s : AppState) :
  (List.length (operations (present (removeOperation operationId s))) <= 1)%nat ->
  compositeMatrix (present (removeOperation operationId s))
  = product_right_to_left (operations (present (removeOperation operationId s))).
Proof.
  cbn [App.removeOperation present operations compositeMatrix].
  destruct (filter _ _) as [ | op [ | op' rest]]; cbn [List.length].
  - reflexivity.
  - reflexivity.
  - lia.
Qed.

End WithHost.

(** Two gates appended: the pointer is 1 and designates the triple on
    display. *)
Lemma present_is_pointed_entry_witness :
  let acts := [Add "a" 1 Quantum.GateName.H; Add "b" 2 Quantum.GateName.X] in
  exists s, run Host.Math_cos Host.Math_sin initial acts = Some s
            /\ index (history s) (historyIndex s) = Some (present s).
Proof.
  cbv zeta. eexists. split; [vm_compute; reflexivity | ].
  refine (proj1 (present_is_pointed_entry Host.Math_cos Host.Math_sin
                   [Add "a" 1 Quantum.GateName.H; Add "b" 2 Quantum.GateName.X]
                   _ _) _).
  - vm_compute; reflexivity.
  - vm_compute; discriminate.
Defined.

(** One gate appended, then [reset]: [undo] brings the one-gate triple
    back. *)
Lemma undo_reverts_last_action_witness :
  let s := addGate Host.Math_cos Host.Math_sin "a" 1 Quantum.GateName.H initial in
  exists s' s'',
    step Host.Math_cos Host.Math_sin s Reset = Some s'
    /\ undo s' = Some s''
    /\ present s'' = present s
    /\ redo s'' = Some s'.
Proof.
  cbv zeta.
  apply (undo_reverts_last_action Host.Math_cos Host.Math_sin
           [Add "a" 1 Quantum.GateName.H]).
  - vm_compute; reflexivity.
  - vm_compute; discriminate.
  - reflexivity.
Defined.

(** Two gates appended: [undo] then [redo] is the identity. *)
Lemma redo_cancels_undo_witness :
  let s := addGate Host.Math_cos Host.Math_sin "b" 2 Quantum.GateName.X
             (addGate Host.Math_cos Host.Math_sin "a" 1 Quantum.GateName.H
                initial) in
  exists s1, undo s = Some s1
             /\ historyIndex s1 = (historyIndex s - 1)%Z
             /\ redo s1 = Some s.
Proof.
  cbv zeta.
  apply (redo_cancels_undo Host.Math_cos Host.Math_sin
           [Add "a" 1 Quantum.GateName.H; Add "b" 2 Quantum.GateName.X]).
  - vm_compute; reflexivity.
  - vm_compute; reflexivity.
Defined.

(** Two gates appended and one [undo]: [redo] then [undo] is the
    identity. *)
Lemma undo_cancels_redo_witness :
  let acts := [Add "a" 1 Quantum.GateName.H; Add "b" 2 Quantum.GateName.X;
               Undo] in
  exists s, run Host.Math_cos Host.Math_sin initial acts = Some s
            /\ exists s1, redo s = Some s1
                          /\ historyIndex s1 = (historyIndex s + 1)%Z
                          /\ undo s1 = Some s.
Proof.
  cbv zeta. eexists. split; [vm_compute; reflexivity | ].
  apply (undo_cancels_redo Host.Math_cos Host.Math_sin
           [Add "a" 1 Quantum.GateName.H; Add "b" 2 Quantum.GateName.X; Undo]).
  - vm_compute; reflexivity.
  - vm_compute; reflexivity.
Defined.

(** A log of 100 entries with the pointer on the last one. *)
Lemma full_log_evicts_oldest_witness :
  let s := {| present := present initial;
              history := repeat (present initial) 100;
              historyIndex := 99 |} in
  exists s', step Host.Math_cos Host.Math_sin s Reset = Some s'
             /\ history s' = tl (history s) ++ [present s']
             /\ historyIndex s' = 99%Z.
Proof.
  cbv zeta.
  apply (full_log_evicts_oldest Host.Math_cos Host.Math_sin); reflexivity.
Defined.

(** A run with gates, [undo], [reset] and [redo], and no removal. *)
Lemma run_without_remove_is_coherent_witness :
  let acts := [Add "a" 1 Quantum.GateName.H; Add "b" 2 Quantum.GateName.Z;
               Undo; Add "c" 3 Quantum.GateName.T; Reset; Undo; Redo] in
  exists s, run Host.Math_cos Host.Math_sin initial acts = Some s
            /\ coherent Host.Math_cos Host.Math_sin (present s)
            /\ Forall (coherent Host.Math_cos Host.Math_sin) (history s).
Proof.
  cbv zeta. eexists. split; [vm_compute; reflexivity | ].
  apply (run_without_remove_is_coherent Host.Math_cos Host.Math_sin
           [Add "a" 1 Quantum.GateName.H; Add "b" 2 Quantum.GateName.Z;
            Undo; Add "c" 3 Quantum.GateName.T; Reset; Undo; Redo]).
  - reflexivity.
  - vm_compute; reflexivity.
Defined.

(** Two operations that carry the same identifier, removed at once. *)
Lemma remove_all_is_initial_triple_witness :
  let s := addGate Host.Math_cos Host.Math_sin "a" 2 Quantum.GateName.Z
             (addGate Host.Math_cos Host.Math_sin "a" 1 Quantum.GateName.X
                initial) in
  present (removeOperation Host.Math_cos Host.Math_sin "a" s) = present initial.
Proof.
  cbv zeta. apply remove_all_is_initial_triple.
  intros op [<- | [<- | []]]; reflexivity.
Defined.

(** [X] and [Z] appended, [Z] removed: the matrix left is that of [X]. *)
Lemma remove_leaving_one_is_product_witness :
  let s := addGate Host.Math_cos Host.Math_sin "b" 2 Quantum.GateName.Z
             (addGate Host.Math_cos Host.Math_sin "a" 1 Quantum.GateName.X
                initial) in
  let s' := removeOperation Host.Math_cos Host.Math_sin "b" s in
  compositeMatrix (present s')
  = product_right_to_left Host.Math_cos Host.Math_sin (operations (present s')).
Proof.
  cbv zeta. apply remove_leaving_one_is_product.
  vm_compute. apply le_n.
Defined.

End EngineFacts.

(* ================================================================= *)
(** ** The share link *)

Module ShareFacts.

Import App Share.

Lemma gateArray_app (a b : jsstring) :
  gateArray (a ++ b) = gateArray a ++ gateArray b.
Proof. unfold gateArray, split_units. now rewrite map_app, filter_app. Qed.

(** X11: reading back the string [shareState] puts in the link gives the
    keys of the sequence in order, except that each daggered gate comes
    back as its undaggered one: the dagger is a code unit of its own and
    is filtered out. *)
Theorem share_link_round_trip (ops : list GateOperation) :
  gateArray (gateSequence ops) = map (fun op => key (undagger (gate op))) ops.
Proof.
  induction ops as [ | op ops IH]; [reflexivity | ].
  unfold gateSequence in *. cbn [map List.concat].
  rewrite gateArray_app, IH. f_equal.
  now destruct (gate op).
Qed.

(** X12: whatever the [gates] parameter holds, the strings kept for
    replay are keys of the six one-letter gates, so the lookup in the
    table always finds a matrix. *)
Theorem gateArray_only_registry_keys (gates : jsstring) (k : jsstring) :
  In k (gateArray gates) ->
  exists g, k = key g /\ undagger g = g.
Proof.
  unfold gateArray, split_units. intros Hin.
  apply filter_In in Hin as [Hin Hk].
  apply in_map_iff in Hin as [c [<- _]].
  unfold in_GATES in Hk. apply existsb_exists in Hk as [k' [Hin E]].
  unfold jsstring_eqb in E.
  destruct (list_eq_dec N.eq_dec [c] k') as [<- | _]; [clear E | discriminate E].
  unfold keys in Hin. apply in_map_iff in Hin as [g [E _]].
  exists g. split; [now symmetry | ].
  destruct g; try reflexivity; discriminate E.
Qed.

(** The string [S], dagger, [q]: only [S] is kept. *)
Lemma gateArray_only_registry_keys_witness :
  In [83%N] (gateArray [83%N; 8224%N; 113%N])
  /\ exists g, [83%N] = key g /\ undagger g = g.
Proof.
  split; [left; reflexivity | ].
  apply (gateArray_only_registry_keys [83%N; 8224%N; 113%N]).
  left; reflexivity.
Defined.

End ShareFacts.

(* ================================================================= *)
(** ** More on the kernel *)

Module KernelFacts.

Import Quantum Statistics NumberFacts.
Local Open Scope num_scope.

(** *** Rounding and signs *)

(** The sign given to the rounding only ends up in the sign of the
    result. *)
Lemma round_aux_abs (s1 s2 : bool) (m e : Z) (l : location) :
  SFabs (binary_round_aux prec emax s1 m e l)
  = SFabs (binary_round_aux prec emax s2 m e l).
Proof.
  unfold binary_round_aux.
  destruct (shr_fexp prec emax m e l) as [mrs' e'].
  destruct (shr_fexp prec emax _ e' loc_Exact) as [mrs'' e''].
  destruct (shr_m mrs''); [reflexivity | | reflexivity].
  now destruct (e'' <=? emax - prec)%Z.
Qed.

Lemma round_aux_sign (s : bool) (m e : Z) (l : location) :
  s = false -> not_negative (binary_round_aux prec emax s m e l) = true.
Proof.
  intros ->. unfold binary_round_aux.
  destruct (shr_fexp prec emax m e l) as [mrs' e'].
  destruct (shr_fexp prec emax _ e' loc_Exact) as [mrs'' e''].
  destruct (shr_m mrs''); [reflexivity | | reflexivity].
  now destruct (e'' <=? emax - prec)%Z.
Qed.

Lemma round_abs (s1 s2 : bool) (m : positive) (e : Z) :
  SFabs (binary_round prec emax s1 m e) = SFabs (binary_round prec emax s2 m e).
Proof.
  unfold binary_round. destruct (shl_align _ _ _) as [mz ez].
  apply round_aux_abs.
Qed.

Lemma round_sign (m : positive) (e : Z) :
  not_negative (binary_round prec emax false m e) = true.
Proof.
  unfold binary_round. destruct (shl_align _ _ _) as [mz ez].
  now apply round_aux_sign.
Qed.

Lemma normalize_opp_abs (z e : Z) :
  SFabs (binary_normalize prec emax (- z) e false)
  = SFabs (binary_normalize prec emax z e false).
Proof. destruct z; cbn [Z.opp binary_normalize]; auto using round_abs. Qed.

(** [|x - y|] and [|y - x|] are the same number. *)
Lemma abs_sub_swap (x y : number) : Math_abs (x - y) = Math_abs (y - x).
Proof.
  unfold Math_abs, sub.
  destruct x as [s | s | | s m e], y as [t | t | | t n f]; cbn [SFsub SFabs];
    try reflexivity; try (destruct s, t; reflexivity).
  rewrite (Z.min_comm f e), <- normalize_opp_abs. f_equal. f_equal. lia.
Qed.

Lemma sub_self (x : number) :
  is_finite x = true -> x - x = 0.
Proof.
  unfold sub. destruct x as [s | s | | s m e]; try discriminate; intros _.
  - now destruct s.
  - cbn [SFsub]. now rewrite Z.sub_diag.
Qed.

Lemma sub_self_not_finite (x : number) :
  is_finite x = false -> isNaN (x - x) = true.
Proof.
  unfold sub. destruct x as [s | s | | s m e]; try discriminate; intros _.
  - now destruct s.
  - reflexivity.
Qed.

Lemma mul_self_sign (x : number) : not_negative (x * x) = true.
Proof.
  unfold mul. destruct x as [s | s | | s m e]; cbn [SFmul not_negative];
    try reflexivity; try (now destruct s).
  apply round_aux_sign. now destruct s.
Qed.

Lemma add_sign (x y : number) :
  not_negative x = true -> not_negative y = true -> not_negative (x + y) = true.
Proof.
  unfold add.
  destruct x as [s | s | | s m e], y as [t | t | | t n f];
    cbn [not_negative]; intros Hx Hy;
    try apply negb_true_iff in Hx; try apply negb_true_iff in Hy; subst;
    try reflexivity.
  cbn [SFadd cond_Zopp Z.add binary_normalize]. apply round_sign.
Qed.

Lemma div_sign (x y : number) :
  not_negative x = true -> not_negative y = true -> not_negative (x / y) = true.
Proof.
  unfold div.
  destruct x as [s | s | | s m e], y as [t | t | | t n f];
    cbn [not_negative]; intros Hx Hy;
    try apply negb_true_iff in Hx; try apply negb_true_iff in Hy; subst;
    try reflexivity.
  cbn [SFdiv]. destruct (SFdiv_core_binary _ _ _ _ _ _) as [[mz ez] lz].
  now apply round_aux_sign.
Qed.

Lemma magnitudeSquared_sign (c : Complex) :
  not_negative (magnitudeSquared c) = true.
Proof. unfold magnitudeSquared. apply add_sign; apply mul_self_sign. Qed.

(** *** [equals] *)

(** X13: [equals] does not depend on the order of the two values
    compared. *)
Theorem equals_symmetric (a b : Complex) (tolerance : number) :
  equals a b tolerance = equals b a tolerance.
Proof.
  unfold equals.
  now rewrite (abs_sub_swap (re a) (re b)), (abs_sub_swap (im a) (im b)).
Qed.

(** X14: at a positive tolerance a value equals itself exactly when both
    its components are finite; with an infinite or [NaN] component it
    does not even equal itself. *)
Theorem equals_reflexive_iff_finite (a : Complex) (tolerance : number) :
  (0 <? tolerance) = true ->
  equals a a tolerance = is_finite (re a) && is_finite (im a).
Proof.
  intros Pos. unfold equals.
  assert (K : forall x, (Math_abs (x - x) <? tolerance) = is_finite x).
  { intros x. destruct (is_finite x) eqn:F.
    - rewrite (sub_self x F). exact Pos.
    - pose proof (sub_self_not_finite x F) as N.
      destruct (x - x); try discriminate N. reflexivity. }
  now rewrite !K.
Qed.

(** [1] equals itself at [1e-12]; a value with a [NaN] component does
    not. *)
Lemma equals_reflexive_iff_finite_witness :
  equals Complex_one Complex_one e_12 = true
  /\ equals (Complex_raw NaN 0) (Complex_raw NaN 0) e_12 = false.
Proof.
  split.
  - now rewrite (equals_reflexive_iff_finite Complex_one e_12).
  - now rewrite (equals_reflexive_iff_finite (Complex_raw NaN 0) e_12).
Defined.

(** *** The constructor and [conjugate] *)

Lemma clean_twice (x : number) : clean (clean x) = clean x.
Proof.
  unfold clean. destruct (Math_abs x <? e_15) eqn:L; [reflexivity | ].
  now rewrite L.
Qed.

Lemma clean_neg_clean_neg (x : number) : clean (- clean (- x)) = clean x.
Proof.
  assert (A : Math_abs (- x) = Math_abs x) by now destruct x.
  unfold clean. rewrite A.
  destruct (Math_abs x <? e_15) eqn:L; [reflexivity | ].
  now rewrite neg_involutive, L.
Qed.

(** X15: rebuilding a value from its own components gives the value
    back, and conjugating twice gives the value back, for every value the
    constructor has built. *)
Theorem constructed_values_are_stable (x y : number) :
  let c := new_Complex x y in
  new_Complex (re c) (im c) = c
  /\ conjugate (conjugate c) = c.
Proof.
  cbv zeta. unfold conjugate, new_Complex. cbn [re im]. split.
  - now rewrite !clean_twice.
  - now rewrite !clean_twice, clean_neg_clean_neg, clean_twice.
Qed.

(** *** Statistics *)

(** X16: the two probabilities are never negative: each is [NaN] or a
    value whose sign bit is clear. *)
Theorem probabilities_not_negative (state : StateVector) :
  not_negative (prob0 (calculateProbabilities state)) = true
  /\ not_negative (prob1 (calculateProbabilities state)) = true.
Proof.
  unfold calculateProbabilities. cbn [prob0 prob1].
  split; apply div_sign;
    auto using magnitudeSquared_sign, add_sign.
Qed.

(** X17: on a zero value [normalize] returns zero, and on a vector of
    zeros [normalizeState] returns [(1, 0)]; neither divides. *)
Theorem normalize_of_zero (s1 s2 s3 s4 : bool) :
  let z := S754_zero in
  normalize (Complex_raw (z s1) (z s2)) = Complex_zero
  /\ normalizeState (Complex_raw (z s1) (z s2), Complex_raw (z s3) (z s4))
     = (Complex_one, Complex_zero).
Proof. destruct s1, s2, s3, s4; split; reflexivity. Qed.

Section Entropy.

Variables Math_log2 Math_log2' : number -> number.

(** X18: the entropy takes the logarithm only of probabilities above
    [1e-15]: two hosts whose [Math.log2] agree there give the same
    entropy on every vector. *)
Theorem entropy_reads_log_above_threshold (state : StateVector) :
  (forall p, (p >? e_15) = true -> Math_log2 p = Math_log2' p) ->
  calculateEntropy Math_log2 state = calculateEntropy Math_log2' state.
Proof.
  intros Agree. unfold calculateEntropy.
  destruct (prob0 _ >? e_15) eqn:G0; destruct (prob1 _ >? e_15) eqn:G1;
    now rewrite ?(Agree _ G0), ?(Agree _ G1).
Qed.

(** X19: on a vector of zeros, where both probabilities are [NaN], the
    entropy is [0] whatever [Math.log2] is. *)
Theorem entropy_of_zero_vector (s1 s2 s3 s4 : bool) :
  let z := S754_zero in
  calculateEntropy Math_log2
    (new_Complex (z s1) (z s2), new_Complex (z s3) (z s4)) = 0.
Proof. destruct s1, s2, s3, s4; reflexivity. Qed.

End Entropy.

(** Two logarithms that differ only at or below the threshold. *)
Lemma entropy_reads_log_above_threshold_witness :
  let log_a := fun _ : number => 0 in
  let log_b := fun p : number => if p >? e_15 then 0 else 1 in
  let state := (new_Complex n0_5 n0_5, new_Complex 0 0) in
  log_a 0 <> log_b 0
  /\ calculateEntropy log_a state = calculateEntropy log_b state.
Proof.
  cbv zeta. split; [discriminate | ].
  apply entropy_reads_log_above_threshold.
  intros p G. now rewrite G.
Defined.

End KernelFacts.

(* ================================================================= *)
(** ** The validation of [App.tsx] *)

Module ValidationFacts.

Import App Validation NumberFacts.
Local Open Scope num_scope.

Lemma app_phase_matrix_unitary (c s : number) :
  In c (within2 Math_SQRT1_2) -> In s (within2 Math_SQRT1_2) ->
  isUnitary (phase_matrix c s) e_12 = true
  /\ isUnitary (phase_matrix c (- s)) e_12 = true.
Proof.
  intros Hc Hs.
  assert (A : forallb (fun c => forallb (fun s =>
                isUnitary (phase_matrix c s) e_12
                && isUnitary (phase_matrix c (- s)) e_12)
                (within2 Math_SQRT1_2)) (within2 Math_SQRT1_2) = true)
    by (vm_compute; reflexivity).
  rewrite forallb_forall in A. specialize (A c Hc).
  rewrite forallb_forall in A. specialize (A s Hs).
  now apply andb_prop in A.
Qed.

(** X20: every matrix of the gate table of [App.tsx] passes the
    [isUnitary] of [App.tsx] at the tolerance [1e-12], whatever the host
    returns for the cosine and sine of [Math.PI / 4] and its opposite
    within two units in the last place. *)
Theorem app_table_is_unitary (Math_cos Math_sin : number -> number) (g : Gate) :
  trig_accurate Math_cos Math_sin = true ->
  isUnitary (GATES Math_cos Math_sin g) e_12 = true.
Proof.
  intros accurate. unfold trig_accurate in accurate.
  apply andb_prop in accurate as [A Hs'].
  apply andb_prop in A as [A Hc'].
  apply andb_prop in A as [Hc Hs].
  apply near_In in Hc, Hs, Hc', Hs'.
  destruct g.
  6: exact (proj1 (app_phase_matrix_unitary _ _ Hc Hs)).
  7: { change (isUnitary (phase_matrix (Math_cos (- Math_PI / 4))
                                      (Math_sin (- Math_PI / 4))) e_12 = true).
       rewrite <- (neg_involutive (Math_sin (- Math_PI / 4))).
       exact (proj2 (app_phase_matrix_unitary _ _ Hc' Hs')). }
  all: vm_compute; reflexivity.
Qed.

(** The hypothesis on the host holds of [Host]. *)
Lemma app_table_is_unitary_witness :
  trig_accurate Host.Math_cos Host.Math_sin = true
  /\ forall g, isUnitary (GATES Host.Math_cos Host.Math_sin g) e_12 = true.
Proof.
  split; [vm_compute; reflexivity | ].
  intros g. apply app_table_is_unitary. vm_compute; reflexivity.
Defined.

End ValidationFacts.
